(** * tgraph.py: rate-limited Telegraph accounts, the account pool and the
    concurrency bound of [TelegraphIfy].

    The Python module is embedded as state-passing functions over an account
    record ([Telegraph]) and a [World] that carries the clock, the trace of
    effects performed so far, and the answers of everything the module cannot
    decide itself: the remote Telegraph service, the scheduler (who owns the
    reader/writer lock, how long a blocking step really takes) and the random
    source.  Python exceptions are the [Raise] outcome; a mutation made before
    an exception is raised stays in the returned state, as in Python.

    Idealisations: [time.time()] is an exact rational instead of a float;
    strings are ASCII; one thread runs at a time, other threads show up only
    through the scheduler's answers; [logger] calls are left out. *)

From Equations Require Import Equations.
From Stdlib Require Import ZArith QArith Qminmax Lqa List String Ascii Bool Lia.
Import ListNotations.

Local Open Scope string_scope.
Local Open Scope list_scope.
Local Open Scope Z_scope.

(** ** Python string helpers used by the module *)

Module Py.

(** [str.isspace] on one ASCII character: TAB..CR, FS..US and the blank. *)
Definition isspace (c : ascii) : bool :=
  let n := nat_of_ascii c in
  ((9 <=? n)%nat && (n <=? 13)%nat) || ((28 <=? n)%nat && (n <=? 32)%nat).

Fixpoint lstrip (s : string) : string :=
  match s with
  | String c r => if isspace c then lstrip r else s
  | EmptyString => EmptyString
  end.

Fixpoint rstrip (s : string) : string :=
  match s with
  | String c r =>
      match rstrip r with
      | EmptyString => if isspace c then EmptyString else String c EmptyString
      | r' => String c r'
      end
  | EmptyString => EmptyString
  end.

(** [s.strip()] *)
Definition strip (s : string) : string := rstrip (lstrip s).

(** [s.startswith(p)] *)
Definition startswith (p s : string) : bool := String.prefix p s.

(** [s.split(sep)] for a one-character separator: never the empty list. *)
Fixpoint split (sep : ascii) (s : string) : list string :=
  match s with
  | EmptyString => [EmptyString]
  | String c r =>
      if Ascii.eqb c sep then EmptyString :: split sep r
      else match split sep r with
           | h :: t => String c h :: t
           | [] => [String c EmptyString]
           end
  end.

(** [l[-1]] on a list of strings that is known to be non-empty. *)
Definition last_item (l : list string) : string := List.last l EmptyString.

Definition digit_of (c : ascii) : option Z :=
  let n := nat_of_ascii c in
  if ((48 <=? n)%nat && (n <=? 57)%nat)%bool then Some (Z.of_nat (n - 48)) else None.

Fixpoint digits (acc : Z) (s : string) : option Z :=
  match s with
  | EmptyString => Some acc
  | String c r =>
      match digit_of c with
      | Some d => digits (10 * acc + d) r
      | None => None
      end
  end.

(** The blanks that [int] skips around an ASCII literal: TAB..CR and the
    blank, without FS..US. *)
Definition isspace_c (c : ascii) : bool :=
  let n := nat_of_ascii c in
  ((9 <=? n)%nat && (n <=? 13)%nat) || (n =? 32)%nat.

Fixpoint lstrip_c (s : string) : string :=
  match s with
  | String c r => if isspace_c c then lstrip_c r else s
  | EmptyString => EmptyString
  end.

Fixpoint rstrip_c (s : string) : string :=
  match s with
  | String c r =>
      match rstrip_c r with
      | EmptyString => if isspace_c c then EmptyString else String c EmptyString
      | r' => String c r'
      end
  | EmptyString => EmptyString
  end.

(** [int(s)] on a string without underscores: blanks around, an optional
    sign, at least one decimal digit.  [None] is Python's [ValueError].  The
    limit that later interpreters put on the number of digits is left
    out. *)
Definition int (s : string) : option Z :=
  match rstrip_c (lstrip_c s) with
  | EmptyString => None
  | String "-" (String c r) => option_map Z.opp (digits 0 (String c r))
  | String "+" (String c r) => digits 0 (String c r)
  | String "-" EmptyString => None
  | String "+" EmptyString => None
  | t => digits 0 t
  end.

End Py.

(** ** Exceptions and outcomes *)

Inductive exn : Type :=
| TelegraphException (msg : string)   (* telegraph.TelegraphException *)
| OverflowError
| ValueError (msg : string)
| OtherException (name : string).     (* any other Exception, e.g. of requests *)

Inductive outcome (A : Type) : Type :=
| Return (a : A)
| Raise (e : exn).
Arguments Return {A} a.
Arguments Raise {A} e.

(** The error of a pool without accounts (line 111). *)
Definition NotConfigured : exn := TelegraphException "Telegraph token no set!".

(** ** The world outside the module *)

Record PageArgs : Type := mkArgs {
  title : string;
  html_content : string;
  author_name : string;
  author_url : string
}.

Record Page : Type := mkPage { url : string }.

Inductive event : Type :=
| EvSleep (d : Q)                                  (* time.sleep(d) *)
| EvCreatePage (token : string) (args : PageArgs) (start stop : Q)
               (answer : outcome Page)             (* remote createPage *)
| EvCreateAccount (answer : outcome string)        (* remote createAccount *)
| EvGetAccountInfo (token : string) (answer : outcome unit)
| EvWriteLock                                      (* write_lock() entered *)
| EvWriteUnlock                                    (* write_lock() left *)
| EvChoice (index : nat).                          (* random.choice picked it *)

(** Each stream is read at 0 and then shifted: [pages w 0] is the answer to
    the next remote createPage, [pages w 1] to the one after, and so on. *)
Record World : Type := mkWorld {
  now : Q;                              (* time.time() *)
  trace : list event;                   (* effects so far, oldest first *)
  pages : nat -> outcome Page;          (* remote createPage *)
  accounts : nat -> outcome string;     (* remote createAccount: new token *)
  infos : nat -> outcome unit;          (* remote getAccountInfo *)
  writer : nat -> bool;                 (* _lock.owner == _lock.WRITER ? *)
  delays : nat -> Q;                    (* time a blocking step takes on top *)
  draws : nat -> nat                    (* random source *)
}.

Definition shift {A : Type} (f : nat -> A) : nat -> A := fun n => f (S n).

Definition emit (e : event) (w : World) : World :=
  mkWorld (now w) (trace w ++ [e]) (pages w) (accounts w) (infos w) (writer w)
          (delays w) (draws w).

(** A blocking step that nominally lasts [d]: the clock moves by [d] plus the
    next delay. *)
Definition elapse (d : Q) (w : World) : World :=
  mkWorld (now w + d + delays w 0%nat)%Q (trace w) (pages w) (accounts w) (infos w)
          (writer w) (shift (delays w)) (draws w).

(** [time.sleep(d)]: a negative length is a [ValueError]. *)
Definition sleep (d : Q) (w : World) : outcome unit * World :=
  if Qle_bool 0 d then (Return tt, elapse d (emit (EvSleep d) w))
  else (Raise (ValueError "sleep length must be non-negative"), w).

(** [self._lock.owner == self._lock.WRITER] *)
Definition owner_is_writer (w : World) : bool * World :=
  (writer w 0%nat,
   mkWorld (now w) (trace w) (pages w) (accounts w) (infos w) (shift (writer w))
           (delays w) (draws w)).

(** ** class Telegraph *)

Record Telegraph : Type := mkTelegraph {
  access_token : string;     (* self._telegraph.access_token *)
  retries : Z;
  last_run : Q
}.

Definition set_retries (r : Z) (self : Telegraph) : Telegraph :=
  mkTelegraph (access_token self) r (last_run self).

Definition set_last_run (t : Q) (self : Telegraph) : Telegraph :=
  mkTelegraph (access_token self) (retries self) t.

Definition set_token (t : string) (self : Telegraph) : Telegraph :=
  mkTelegraph t (retries self) (last_run self).

(** [Telegraph.__init__] (lines 25-33) *)
Definition Telegraph_init (token : string) (w : World) : Telegraph :=
  mkTelegraph token 0 (now w).

(** The library's [create_account(short_name, author_name, author_url)] with
    its default [replace_token=True]: one remote call; the account takes the
    new token when the call succeeds.  The module passes the same three
    constants at each of its three call sites, so they are not carried. *)
Definition create_account (self : Telegraph) (w : World)
  : outcome unit * Telegraph * World :=
  let w1 := elapse 0 (emit (EvCreateAccount (accounts w 0%nat)) w) in
  let w2 := mkWorld (now w1) (trace w1) (pages w1) (shift (accounts w1)) (infos w1)
                    (writer w1) (delays w1) (draws w1) in
  match accounts w 0%nat with
  | Return tok => (Return tt, set_token tok self, w2)
  | Raise e => (Raise e, self, w2)
  end.

(** The library's [get_account_info()]: one remote call. *)
Definition get_account_info (self : Telegraph) (w : World) : outcome unit * World :=
  let w1 := elapse 0 (emit (EvGetAccountInfo (access_token self) (infos w 0%nat)) w) in
  (infos w 0%nat,
   mkWorld (now w1) (trace w1) (pages w1) (accounts w1) (shift (infos w1))
           (writer w1) (delays w1) (draws w1)).

(** The library's [create_page] reached through [super()]: one remote call
    with the account's current token, from [start] to [stop]. *)
Definition super_create_page (args : PageArgs) (self : Telegraph) (w : World)
  : outcome Page * World :=
  let w1 := elapse 0 w in
  (pages w 0%nat,
   mkWorld (now w1)
           (trace w1 ++ [EvCreatePage (access_token self) args (now w) (now w1)
                                      (pages w 0%nat)])
           (shift (pages w1)) (accounts w1) (infos w1) (writer w1) (delays w1)
           (draws w1)).

(** [Telegraph._create_page] (lines 66-72).  The read lock and [_rlock] are
    taken and given back around the body; with one thread running they do
    not block. *)
Definition _create_page (args : PageArgs) (self : Telegraph) (w : World)
  : outcome Page * Telegraph * World :=
  match sleep (Qmax (1 - (now w - last_run self)) 0) w with
  | (Raise e, w1) => (Raise e, self, w1)
  | (Return _, w1) =>
      match super_create_page args self w1 with
      | (Raise e, w2) => (Raise e, self, w2)
      | (Return ret, w2) => (Return ret, set_last_run (now w2) self, w2)
      end
  end.

(** Lines 53-61: what one flood-control rejection with wait [retry_after]
    costs before the retry.  Nothing when another caller owns the write
    lock; otherwise, under the write lock, a new account for a long wait
    and a sleep of [retry_after + 1] for a short one.  The [with] block gives
    the lock back on every way out. *)
Definition flood_backoff (retry_after : Z) (self : Telegraph) (w : World)
  : outcome unit * Telegraph * World :=
  let '(blocking, w1) := owner_is_writer w in
  if negb blocking then
    let w2 := emit EvWriteLock w1 in
    if 60 <=? retry_after then
      let '(r, self3, w3) := create_account self w2 in
      (r, self3, emit EvWriteUnlock w3)
    else
      let '(r, w3) := sleep (inject_Z (retry_after + 1)) w2 in
      (r, self, emit EvWriteUnlock w3)
  else (Return tt, self, w1).

(** Matching on a value while keeping the equation that says where it came
    from, for the termination argument of [create_page]. *)
Definition inspect {A : Type} (a : A) : {b : A | a = b} := exist _ a eq_refl.

Notation "x 'known' p" := (exist _ x p) (only parsing, at level 20).

(** [Telegraph.create_page] (lines 35-64).  The recursion of line 62 runs
    with a counter one higher than at entry, and the guard of line 36 stops
    it at 3. *)
Equations? create_page (args : PageArgs) (self : Telegraph) (w : World)
  : outcome Page * Telegraph * World
  by wf (Z.to_nat (3 - retries self)) lt :=
create_page args self w with inspect (3 <=? retries self) := {
  | true known _ => (Raise OverflowError, set_retries 0 self, w)
  | false known Hcap with inspect (_create_page args self w) := {
    | (Return page, self1, w1) known _ =>
        (Return page, set_retries 0 self1, w1)
    | (Raise (TelegraphException e_msg), self1, w1) known Hcall
        with inspect (Py.startswith "FLOOD_WAIT_" e_msg) := {
      | true known _ with inspect (Py.int (Py.last_item (Py.split "_" e_msg))) := {
        | None known _ =>
            (Raise (ValueError "invalid literal for int()"), self1, w1)
        | Some retry_after known _
            with inspect (flood_backoff retry_after
                            (set_retries (retries self1 + 1) self1) w1) := {
          | (Return _, self2, w2) known Hwait => create_page args self2 w2
          | (Raise e, self2, w2) known _ => (Raise e, self2, w2) } }
      | false known _ => (Raise (TelegraphException e_msg), self1, w1) }
    | (Raise e, self1, w1) known _ => (Raise e, self1, w1) } }.
Proof.
  assert (retries self1 = retries self) as E1.
  { unfold _create_page in Hcall.
    destruct (sleep _ w) as [[u|ex] w0]; [|inversion Hcall; reflexivity].
    destruct (super_create_page args self w0) as [[p|ex] w3]; inversion Hcall; reflexivity. }
  assert (retries self2 = retries self1 + 1) as E2.
  { unfold flood_backoff, owner_is_writer, create_account in Hwait.
    destruct (negb (writer w1 0%nat)); [|inversion Hwait; reflexivity].
    destruct (60 <=? retry_after).
    - destruct (accounts _ 0%nat); inversion Hwait; reflexivity.
    - destruct (sleep _ _) as [r w3]; inversion Hwait; reflexivity. }
  change (Z.to_nat (3 - retries self2) < Z.to_nat (3 - retries self))%nat.
  apply Z.leb_gt in Hcap. lia.
Qed.

(** ** class API *)

Record API : Type := mkAPI { _accounts : list Telegraph }.

(** The constructor takes one token or a list of tokens (line 77). *)
Inductive tokens_arg : Type :=
| OneToken (token : string)
| TokenList (tokens : list string).

Definition as_list (tokens : tokens_arg) : list string :=
  match tokens with
  | OneToken t => [t]
  | TokenList l => l
  end.

(** The [try] block of lines 83-89, up to and without the [append]. *)
Definition probe (token : string) (account : Telegraph) (w : World)
  : outcome unit * Telegraph * World :=
  if negb (Nat.eqb (String.length token) 60) then
    match create_account account w with
    | (Return _, account1, w1) =>
        let '(r, w2) := get_account_info account1 w1 in (r, account1, w2)
    | (Raise e, account1, w1) => (Raise e, account1, w1)
    end
  else
    let '(r, w1) := get_account_info account w in (r, account, w1).

(** One turn of the loop of lines 80-99: the account to append, if any. *)
Definition setup_account (token : string) (w : World) : option Telegraph * World :=
  let token := Py.strip token in
  let account := Telegraph_init token w in
  match probe token account w with
  | (Return _, account1, w1) => (Some account1, w1)
  | (Raise (TelegraphException _), account1, w1) =>
      match create_account account1 w1 with
      | (Return _, account2, w2) => (Some account2, w2)
      | (Raise _, _, w2) => (None, w2)
      end
  | (Raise _, _, w1) => (None, w1)
  end.

Fixpoint setup_accounts (tokens : list string) (accs : list Telegraph) (w : World)
  : list Telegraph * World :=
  match tokens with
  | [] => (accs, w)
  | token :: rest =>
      match setup_account token w with
      | (Some account, w1) => setup_accounts rest (accs ++ [account]) w1
      | (None, w1) => setup_accounts rest accs w1
      end
  end.

(** [API.__init__] (lines 76-99) *)
Definition API_init (tokens : tokens_arg) (w : World) : API * World :=
  let '(accs, w1) := setup_accounts (as_list tokens) [] w in (mkAPI accs, w1).

(** [API.valid] and [API.count] (lines 101-107) *)
Definition valid (self : API) : bool :=
  match _accounts self with
  | [] => false
  | _ :: _ => true
  end.

Definition count (self : API) : nat := List.length (_accounts self).

(** [random.choice(seq)] on a non-empty sequence of length [n]: the index
    [_randbelow(n)], which is below [n]. *)
Definition randbelow (n : nat) (w : World) : nat * World :=
  let i := (draws w 0%nat mod n)%nat in
  (i, mkWorld (now w) (trace w ++ [EvChoice i]) (pages w) (accounts w) (infos w)
              (writer w) (delays w) (shift (draws w))).

(** Writing the account object of position [i] back: the list holds the
    objects themselves, so what [create_page] did to one stays in the pool. *)
Fixpoint store (i : nat) (a : Telegraph) (l : list Telegraph) : list Telegraph :=
  match l, i with
  | [], _ => []
  | _ :: t, O => a :: t
  | h :: t, S j => h :: store j a t
  end.

(** [API.create_page] (lines 109-113) *)
Definition API_create_page (args : PageArgs) (self : API) (w : World)
  : outcome Page * API * World :=
  match _accounts self with
  | [] => (Raise NotConfigured, self, w)
  | first :: _ =>
      let '(i, w1) := randbelow (count self) w in
      let '(r, account, w2) := create_page args (nth i (_accounts self) first) w1 in
      (r, mkAPI (store i account (_accounts self)), w2)
  end.

(** ** Module level (lines 116-121) and [TelegraphIfy] (lines 130-135) *)

(** [env.TELEGRAPH_TOKEN] is a setting read elsewhere: absent or a string. *)
Definition module_api (TELEGRAPH_TOKEN : option string) (w : World)
  : option API * World :=
  match TELEGRAPH_TOKEN with
  | None => (None, w)
  | Some EmptyString => (None, w)
  | Some s =>
      let '(api, w1) := API_init (TokenList (Py.split "," s)) w in
      if valid api then (Some api, w1) else (None, w1)
  end.

(** [TelegraphIfy.max_concurrency], the size of [_semaphore]. *)
Definition max_concurrency (api : option API) : nat :=
  match api with
  | Some a => count a
  | None => 10
  end.

(** ** Vocabulary of the properties *)

(** A remote error is a flood-control error when line 49 says so, and carries
    the wait that line 50 reads from it. *)
Definition is_flood (e : exn) : bool :=
  match e with
  | TelegraphException e_msg => Py.startswith "FLOOD_WAIT_" e_msg
  | _ => false
  end.

Definition flood_wait (e : exn) : option Z :=
  match e with
  | TelegraphException e_msg =>
      if Py.startswith "FLOOD_WAIT_" e_msg
      then Py.int (Py.last_item (Py.split "_" e_msg))
      else None
  | _ => None
  end.

(** The length of the sleep of line 69. *)
Definition throttle (self : Telegraph) (w : World) : Q :=
  Qmax (1 - (now w - last_run self)) 0.

(** The world after one pass through [_create_page]. *)
Definition attempted (args : PageArgs) (self : Telegraph) (w : World) : World :=
  snd (_create_page args self w).

(** The remote createPage calls among some events. *)
Definition is_page_call (e : event) : bool :=
  match e with
  | EvCreatePage _ _ _ _ _ => true
  | _ => false
  end.

Definition page_calls (evs : list event) : list event := filter is_page_call evs.

(** Every provisioning call that may come is answered with a token. *)
Definition provisioning_ok (w : World) : Prop :=
  forall k, exists tok, accounts w k = Return tok.

(** No blocking step takes less time than it nominally lasts. *)
Definition delays_ok (w : World) : Prop := forall k, (0 <= delays w k)%Q.

(** Start-to-start discipline of the remote createPage calls among some
    events: each starts at least one time unit after [last], the end of the
    latest one answered with a page (the value of [last_run]), and does not
    end before it starts. *)
Fixpoint spaced (last : Q) (evs : list event) : Prop :=
  match evs with
  | [] => True
  | EvCreatePage _ _ start stop answer :: rest =>
      (last + 1 <= start)%Q /\ (start <= stop)%Q /\
      spaced (match answer with Return _ => stop | Raise _ => last end) rest
  | _ :: rest => spaced last rest
  end.

Fixpoint last_success (last : Q) (evs : list event) : Q :=
  match evs with
  | [] => last
  | EvCreatePage _ _ _ stop (Return _) :: rest => last_success stop rest
  | _ :: rest => last_success last rest
  end.

(** Consecutive remote createPage calls lie at least one time unit apart:
    each starts no earlier than one unit after the previous one ended (and
    so after it started). *)
Fixpoint separated (prev : option (Q * Q)) (evs : list event) : Prop :=
  match evs with
  | [] => True
  | EvCreatePage _ _ start stop _ :: rest =>
      match prev with
      | Some (start0, stop0) => (start0 + 1 <= start)%Q /\ (stop0 + 1 <= start)%Q
      | None => True
      end /\ separated (Some (start, stop)) rest
  | _ :: rest => separated prev rest
  end.

(** A sequence of [create_page] calls on one account object. *)
Fixpoint create_pages (calls : list PageArgs) (self : Telegraph) (w : World)
  : list (outcome Page) * Telegraph * World :=
  match calls with
  | [] => ([], self, w)
  | args :: rest =>
      let '(r, self1, w1) := create_page args self w in
      let '(rs, self2, w2) := create_pages rest self1 w1 in
      (r :: rs, self2, w2)
  end.

(** The operation ends in [OverflowError] with the counter at 0 and with
    nothing done after its one pass through [_create_page]: no write lock,
    no provisioning, no back-off sleep. *)
Definition cap_skips_backoff (args : PageArgs) (self : Telegraph) (w : World) : Prop :=
  let '(r, self', w') := create_page args self w in
  r = Raise OverflowError /\ retries self' = 0 /\
  trace w' = trace (attempted args self w).



(** A remote createPage that was answered with a page; other events pass. *)
Definition answered (ev : event) : Prop :=
  match ev with
  | EvCreatePage _ _ _ _ (Raise _) => False
  | _ => True
  end.

Definition is_return {A : Type} (r : outcome A) : Prop :=
  match r with
  | Return _ => True
  | Raise _ => False
  end.

(** ** Sample inputs *)

Module Sample.

Definition args : PageArgs := mkArgs "title" "<p>text</p>" "author" "".

Definition page : Page := mkPage "https://telegra.ph/title".

Definition flood (tail : string) : outcome Page :=
  Raise (TelegraphException (String.append "FLOOD_WAIT_" tail)).

(** A world at time 100 with nothing done yet, an idle scheduler and a
    service that provisions and vouches for every account. *)
Definition world (answers : nat -> outcome Page) : World :=
  mkWorld 100 [] answers (fun _ => Return "fresh-token") (fun _ => Return tt)
          (fun _ => false) (fun _ => 0%Q) (fun n => n).

Definition account (counter : Z) : Telegraph := mkTelegraph "token" counter 100.

(** Scripts of answers: the listed ones, then pages for ever. *)
Fixpoint script (l : list (outcome Page)) (n : nat) : outcome Page :=
  match l, n with
  | [], _ => Return page
  | a :: _, O => a
  | _ :: t, S m => script t m
  end.

(** The same world with a service that refuses every provisioning. *)
Definition refusing (w : World) : World :=
  mkWorld (now w) (trace w) (pages w)
          (fun _ => Raise (TelegraphException "SHORT_NAME_REQUIRED"))
          (infos w) (writer w) (delays w) (draws w).

(** A token of the length that line 84 expects. *)
Definition token60 : string :=
  "0123456789abcdef0123456789abcdef0123456789abcdef0123456789ab".

(** A world whose service times out on every account-info probe. *)
Definition timing_out (w : World) : World :=
  mkWorld (now w) (trace w) (pages w) (accounts w)
          (fun _ => Raise (OtherException "ReadTimeout"))
          (writer w) (delays w) (draws w).

End Sample.

(** ** class Session (lines 17-21) *)

(** The Python values that keyword arguments of a request hold. *)
#[warnings="-register-all"] Inductive pyval : Type :=
| PyNone
| PyInt (z : Z)
| PyStr (s : string)
| PyTuple (items : list pyval)
| PyDict (items : list (string * pyval)).

(** A [dict] with string keys, in insertion order, one entry per key. *)
Definition kwargs : Type := list (string * pyval).

Fixpoint get (k : string) (d : kwargs) : option pyval :=
  match d with
  | [] => None
  | (k', v) :: rest => if String.eqb k k' then Some v else get k rest
  end.

(** [d.setdefault(k, v)], as to what it does to [d]. *)
Definition setdefault (k : string) (v : pyval) (d : kwargs) : kwargs :=
  match get k d with
  | Some _ => d
  | None => d ++ [(k, v)]
  end.

(** [Session.request]: the keyword arguments that reach
    [requests.Session.request].  [env.TELEGRAM_PROXY] is a setting read
    elsewhere. *)
Definition Session_request (TELEGRAM_PROXY : pyval) (kw : kwargs) : kwargs :=
  setdefault "proxies" (PyDict [("all", TELEGRAM_PROXY)])
    (setdefault "timeout" (PyTuple [PyInt 5; PyInt 5]) kw).

(** ** class TelegraphIfy (lines 123-170) *)

Definition TELEGRAPH_ALLOWED_TAGS : list string :=
  ["a"; "aside"; "b"; "blockquote"; "br"; "code"; "em"; "figcaption"; "figure";
   "h3"; "h4"; "hr"; "i"; "iframe"; "img"; "li"; "ol"; "p"; "pre"; "s";
   "strong"; "u"; "ul"; "video"].

(** [name in TELEGRAPH_ALLOWED_TAGS] *)
Definition allowed (name : string) : bool :=
  existsb (String.eqb name) TELEGRAPH_ALLOWED_TAGS.

(** The parsed document of BeautifulSoup: text nodes and tags; [id] stands
    for the identity of the tag object. *)
#[warnings="-register-all"] Inductive node : Type :=
| Text (s : string)
| Tag (id : nat) (name : string) (attrs : list (string * string))
      (children : list node).

(** [soup.find_all(recursive=True)]: the tags in document order, collected
    before the loop touches the tree. *)
Fixpoint find_all (n : node) : list (nat * string) :=
  match n with
  | Text _ => []
  | Tag i name _ children => (i, name) :: flat_map find_all children
  end.

(** [tag.replaceWithChildren()] for the tag object [i], seen from a node
    above it: the tag gives way to its children, the rest stays. *)
Fixpoint unwrap (i : nat) (n : node) : list node :=
  match n with
  | Text s => [Text s]
  | Tag j name attrs children =>
      if Nat.eqb i j then children
      else [Tag j name attrs (flat_map (unwrap i) children)]
  end.

(** The loop of lines 144-146. *)
Definition strip_tags (soup : list node) : list node :=
  fold_left (fun doc tag =>
               if negb (allowed (snd tag)) then flat_map (unwrap (fst tag)) doc
               else doc)
            (flat_map find_all soup) soup.

(** The text nodes of a document, in order. *)
Fixpoint texts (n : node) : list string :=
  match n with
  | Text s => [s]
  | Tag _ _ _ children => flat_map texts children
  end.

(** An optional string argument that Python takes for true. *)
Definition truthy (s : option string) : bool :=
  match s with
  | Some (String _ _) => true
  | _ => false
  end.

Definition text_of (s : option string) : string :=
  match s with
  | Some t => t
  | None => EmptyString
  end.

(** [sub in s] on strings *)
Fixpoint contains (sub s : string) : bool :=
  String.prefix sub s ||
  match s with
  | EmptyString => false
  | String _ rest => contains sub rest
  end.

Record TelegraphIfy : Type := mkTelegraphIfy {
  telegraph_author : string;
  telegraph_author_url : string;
  telegraph_title : string;
  telegraph_html_content : string
}.

Definition footer : string :=
  "<br><br>Generated by <a href='https://github.com/Rongronggg9/RSS-to-Telegram-Bot'>RSStT</a>. The copyright belongs to the source site.".

(** [TelegraphIfy.__init__] (lines 137-162).  [parse] is
    [BeautifulSoup(xml, 'lxml')] and [render] is [str(soup)], both of the
    library; [api] is the module's global.  In line 158 the conditional
    takes the whole concatenation as its first branch. *)
Definition TelegraphIfy_init
           (parse : option string -> outcome (list node))
           (render : list node -> string)
           (api : option API)
           (xml title link feed_title author : option string)
  : outcome TelegraphIfy :=
  match api with
  | None => Raise NotConfigured
  | Some _ =>
      match parse xml with
      | Raise e => Raise e
      | Return soup0 =>
          let soup := strip_tags soup0 in
          let '(the_author, the_author_url) :=
            if truthy feed_title then
              (if truthy author && negb (contains (text_of author) (text_of feed_title))
               then String.append (text_of feed_title)
                      (String.append " (" (String.append (text_of author) ")"))
               else text_of feed_title,
               if truthy link then text_of link else EmptyString)
            else
              ("Generated by RSStT",
               "https://github.com/Rongronggg9/RSS-to-Telegram-Bot") in
          Return
            (mkTelegraphIfy
               the_author the_author_url
               (if truthy title then text_of title else "Generated by RSStT")
               (if truthy link
                then String.append (render soup)
                       (String.append footer
                          (String.append "<br><br><a href='"
                             (String.append (text_of link) "'>Source</a>")))
                else EmptyString))
      end
  end.

(** [threading.BoundedSemaphore]: the permits left and the permits it was
    made with. *)
Record semaphore : Type := mkSemaphore { value : nat; initial : nat }.

(** [acquire()]: [None] when no permit is left and the caller has to wait. *)
Definition acquire (s : semaphore) : option semaphore :=
  match value s with
  | O => None
  | S n => Some (mkSemaphore n (initial s))
  end.

(** [release()] of a bounded semaphore. *)
Definition release (s : semaphore) : outcome semaphore :=
  if (initial s <=? value s)%nat
  then Raise (ValueError "Semaphore released too many times")
  else Return (mkSemaphore (S (value s)) (initial s)).

(** [s[:n]] *)
Definition upto (n : nat) (s : string) : string := String.substring 0 n s.

(** [TelegraphIfy.telegraph_ify] (lines 164-170): [None] while the caller
    waits for a permit.  The [with] block gives the permit back on every way
    out; an exception of [release] would take the place of one of the
    body. *)
Definition telegraph_ify (self : TelegraphIfy) (api : option API)
           (sem : semaphore) (w : World)
  : option (outcome string * option API * semaphore * World) :=
  match acquire sem with
  | None => None
  | Some sem1 =>
      let '(r, api1, w1) :=
        match api with
        | None => (Raise (OtherException "AttributeError"), None, w)
        | Some pool =>
            let '(r, pool1, w1) :=
              API_create_page
                (mkArgs (upto 256 (telegraph_title self))
                        (telegraph_html_content self)
                        (upto 128 (telegraph_author self))
                        (upto 512 (telegraph_author_url self)))
                pool w in
            (r, Some pool1, w1)
        end in
      match release sem1, r with
      | Raise e, _ => Some (Raise e, api1, sem1, w1)
      | Return sem2, Return telegraph_page =>
          Some (Return (url telegraph_page), api1, sem2, w1)
      | Return sem2, Raise e => Some (Raise e, api1, sem2, w1)
      end
  end.



(** ** Vocabulary of the further properties *)

(** A remote createPage among the events was made with these arguments. *)
Definition carries (args : PageArgs) (ev : event) : Prop :=
  match ev with
  | EvCreatePage _ a _ _ _ => a = args
  | _ => True
  end.

(** An event that is not a remote createPage answered with a page. *)
Definition unanswered (ev : event) : Prop :=
  match ev with
  | EvCreatePage _ _ _ _ (Return _) => False
  | _ => True
  end.

(** Following the write lock through some events: [None] when it is taken
    while held, given back while free, or held across a remote createPage;
    otherwise whether it is held at the end. *)
Fixpoint lock_state (held : bool) (evs : list event) : option bool :=
  match evs with
  | [] => Some held
  | EvWriteLock :: rest => if held then None else lock_state true rest
  | EvWriteUnlock :: rest => if held then lock_state false rest else None
  | EvCreatePage _ _ _ _ _ :: rest => if held then None else lock_state held rest
  | _ :: rest => lock_state held rest
  end.

(** A tag that some entry of the work list takes out: same object, name
    not allowed. *)
Definition doomed (todo : list (nat * string)) (t : nat * string) : bool :=
  existsb (fun u => Nat.eqb (fst u) (fst t) && negb (allowed (snd u))) todo.

(** A remote createPage among the events was made with what line 166
    sends for this [TelegraphIfy]. *)
Definition within_limits (self : TelegraphIfy) (ev : event) : Prop :=
  match ev with
  | EvCreatePage _ a _ _ _ =>
      (String.length (title a) <= 256)%nat /\
      (String.length (author_name a) <= 128)%nat /\
      (String.length (author_url a) <= 512)%nat /\
      String.prefix (title a) (telegraph_title self) = true /\
      html_content a = telegraph_html_content self
  | _ => True
  end.

(** A sequence of [API.create_page] calls on one pool. *)
Fixpoint API_create_pages (calls : list PageArgs) (self : API) (w : World)
  : list (outcome Page) * API * World :=
  match calls with
  | [] => ([], self, w)
  | args :: rest =>
      let '(r, self1, w1) := API_create_page args self w in
      let '(rs, self2, w2) := API_create_pages rest self1 w1 in
      (r :: rs, self2, w2)
  end.

(** A service that refuses every account-info probe and every
    provisioning that may come. *)
Definition all_refused (w : World) : Prop :=
  (forall k, exists e, infos w k = Raise e) /\
  (forall k, exists e, accounts w k = Raise e).

(** A service that vouches for every account-info probe that may come. *)
Definition all_vouched (w : World) : Prop := forall k, infos w k = Return tt.

(** The counter of an account lies between 0 and the cap. *)
Definition in_range (a : Telegraph) : Prop := 0 <= retries a <= 3.

(** More sample inputs. *)
Module Scene.

(** A world in which another caller holds the write lock at every check. *)
Definition busy (w : World) : World :=
  mkWorld (now w) (trace w) (pages w) (accounts w) (infos w)
          (fun _ => true) (delays w) (draws w).

(** What lxml makes of [<p>hi<span>x</span></p><script>y</script>]. *)
Definition document : list node :=
  [Tag 0 "html" []
     [Tag 1 "body" []
        [Tag 2 "p" [] [Text "hi"; Tag 3 "span" [] [Text "x"]];
         Tag 4 "script" [] [Text "y"]]]].

Definition parse (xml : option string) : outcome (list node) :=
  match xml with
  | Some _ => Return document
  | None => Raise (OtherException "TypeError")
  end.

Fixpoint render_node (n : node) : string :=
  match n with
  | Text s => s
  | Tag _ name _ children =>
      String.append "<" (String.append name (String.append ">"
        (String.append (String.concat "" (map render_node children))
           (String.append "</" (String.append name ">")))))
  end.

Definition render (doc : list node) : string :=
  String.concat "" (map render_node doc).

Definition pool : API := mkAPI [Sample.account 0].

End Scene.

(** * Properties *)


(** ** The string helpers on the inputs the module meets *)

Example split_flood_message :
  Py.split "_" "FLOOD_WAIT_5" = ["FLOOD"; "WAIT"; "5"].
Proof. reflexivity. Qed.

Example split_token_setting :
  Py.split "," "a,b,,c" = ["a"; "b"; ""; "c"] /\ Py.split "," "" = [""].
Proof. split; reflexivity. Qed.

Example int_of_tail :
  Py.int "5" = Some 5 /\ Py.int "007" = Some 7 /\ Py.int " 12 " = Some 12 /\
  Py.int "-5" = Some (-5) /\ Py.int "" = None /\ Py.int "abc" = None.
Proof. repeat split; reflexivity. Qed.

Example int_rejects_separator :
  Py.int (String (ascii_of_nat 28) "5") = None /\
  Py.strip (String (ascii_of_nat 28) "5") = "5".
Proof. split; reflexivity. Qed.

Example strip_token : Py.strip "  a b  " = "a b" /\ Py.strip "   " = "".
Proof. split; reflexivity. Qed.

Example flood_wait_reads :
  flood_wait (TelegraphException "FLOOD_WAIT_70") = Some 70 /\
  flood_wait (TelegraphException "CONTENT_TOO_BIG") = None /\
  flood_wait (OtherException "ReadTimeout") = None.
Proof. repeat split; reflexivity. Qed.

(** [create_page] as one ordinary expression: the text of lines 35-64. *)
Lemma create_page_eq (args : PageArgs) (self : Telegraph) (w : World) :
  create_page args self w =
  if 3 <=? retries self then (Raise OverflowError, set_retries 0 self, w)
  else
    match _create_page args self w with
    | (Return page, self1, w1) => (Return page, set_retries 0 self1, w1)
    | (Raise (TelegraphException e_msg), self1, w1) =>
        if Py.startswith "FLOOD_WAIT_" e_msg then
          match Py.int (Py.last_item (Py.split "_" e_msg)) with
          | None => (Raise (ValueError "invalid literal for int()"), self1, w1)
          | Some retry_after =>
              match flood_backoff retry_after
                      (set_retries (retries self1 + 1) self1) w1 with
              | (Return _, self2, w2) => create_page args self2 w2
              | (Raise e, self2, w2) => (Raise e, self2, w2)
              end
          end
        else (Raise (TelegraphException e_msg), self1, w1)
    | (Raise e, self1, w1) => (Raise e, self1, w1)
    end.
Proof.
  funelim (create_page args self w); try clear Heqcall;
    repeat match goal with
           | E : ?x = _ |- context [?x] => rewrite E
           end; reflexivity.
Qed.


(** ** Primitive steps *)

Lemma sleep_nonneg (d : Q) (w : World) :
  (0 <= d)%Q -> sleep d w = (Return tt, elapse d (emit (EvSleep d) w)).
Proof.
  intros Hd. unfold sleep. apply Qle_bool_iff in Hd. rewrite Hd. reflexivity.
Qed.

Lemma throttle_nonneg (self : Telegraph) (w : World) : (0 <= throttle self w)%Q.
Proof. unfold throttle. apply Q.le_max_r. Qed.

Lemma throttle_enough (self : Telegraph) (w : World) :
  (last_run self + 1 <= now w + throttle self w)%Q.
Proof.
  unfold throttle.
  pose proof (Q.le_max_l (1 - (now w - last_run self)) 0) as H. lra.
Qed.

Lemma _create_page_answer (args : PageArgs) (self : Telegraph) (w : World) :
  _create_page args self w =
  match pages w 0%nat with
  | Return ret =>
      (Return ret, set_last_run (now (attempted args self w)) self,
       attempted args self w)
  | Raise e => (Raise e, self, attempted args self w)
  end.
Proof.
  unfold attempted, _create_page.
  pose proof (sleep_nonneg _ w (throttle_nonneg self w)) as E.
  unfold throttle in *. rewrite E.
  unfold super_create_page. cbn.
  destruct (pages w 0%nat); reflexivity.
Qed.

Lemma attempted_eq (args : PageArgs) (self : Telegraph) (w : World) :
  attempted args self w =
  let start := (now w + throttle self w + delays w 0%nat)%Q in
  let stop := (start + 0 + delays w 1%nat)%Q in
  mkWorld stop
          (trace w ++ [EvSleep (throttle self w);
                       EvCreatePage (access_token self) args start stop
                                    (pages w 0%nat)])
          (shift (pages w)) (accounts w) (infos w) (writer w)
          (shift (shift (delays w))) (draws w).
Proof.
  unfold attempted, _create_page.
  pose proof (sleep_nonneg _ w (throttle_nonneg self w)) as E.
  unfold throttle in *. rewrite E.
  unfold super_create_page. cbn.
  rewrite <- app_assoc.
  destruct (pages w 0%nat); reflexivity.
Qed.

Lemma inject_Z_nonneg (z : Z) : 0 <= z -> (0 <= inject_Z z)%Q.
Proof. intros H. unfold Qle. simpl. lia. Qed.

(** The three ways through lines 53-61 that end without an exception. *)
Lemma flood_backoff_blocked (W : Z) (self : Telegraph) (w : World) :
  writer w 0%nat = true ->
  flood_backoff W self w = (Return tt, self, snd (owner_is_writer w)).
Proof. intros H. unfold flood_backoff. cbn. rewrite H. reflexivity. Qed.

Lemma flood_backoff_rotate (W : Z) (self : Telegraph) (w : World) (tok : string) :
  writer w 0%nat = false -> 60 <= W -> accounts w 0%nat = Return tok ->
  flood_backoff W self w =
  (Return tt, set_token tok self,
   mkWorld (now w + 0 + delays w 0%nat)%Q
           (trace w ++ [EvWriteLock; EvCreateAccount (Return tok); EvWriteUnlock])
           (pages w) (shift (accounts w)) (infos w) (shift (writer w))
           (shift (delays w)) (draws w)).
Proof.
  intros Hw HW Ha. unfold flood_backoff. cbn. rewrite Hw. cbn.
  apply Z.leb_le in HW. rewrite HW.
  unfold create_account. cbn. rewrite Ha. unfold emit. cbn.
  rewrite <- !app_assoc. reflexivity.
Qed.

Lemma flood_backoff_sleep (W : Z) (self : Telegraph) (w : World) :
  writer w 0%nat = false -> 0 <= W < 60 ->
  flood_backoff W self w =
  (Return tt, self,
   mkWorld (now w + inject_Z (W + 1) + delays w 0%nat)%Q
           (trace w ++ [EvWriteLock; EvSleep (inject_Z (W + 1)); EvWriteUnlock])
           (pages w) (accounts w) (infos w) (shift (writer w))
           (shift (delays w)) (draws w)).
Proof.
  intros Hw [H0 H60]. unfold flood_backoff. cbn. rewrite Hw. cbn.
  apply Z.leb_gt in H60. rewrite H60.
  rewrite sleep_nonneg by (apply inject_Z_nonneg; lia).
  unfold emit, elapse. cbn. rewrite <- !app_assoc. reflexivity.
Qed.

(** A failed provisioning leaves through the [with] block as it is. *)
Lemma flood_backoff_rotate_fails (W : Z) (self : Telegraph) (w : World) (e : exn) :
  writer w 0%nat = false -> 60 <= W -> accounts w 0%nat = Raise e ->
  exists w2, flood_backoff W self w = (Raise e, self, w2).
Proof.
  intros Hw HW Ha. unfold flood_backoff. cbn. rewrite Hw. cbn.
  apply Z.leb_le in HW. rewrite HW.
  unfold create_account. cbn. rewrite Ha. eexists. reflexivity.
Qed.

(** What lines 53-61 never touch, however they end. *)
Lemma flood_backoff_frame (W : Z) (self : Telegraph) (w : World) :
  forall r self2 w2,
    flood_backoff W self w = (r, self2, w2) ->
    retries self2 = retries self /\
    last_run self2 = last_run self /\
    (forall k, pages w2 k = pages w k) /\
    (delays_ok w -> delays_ok w2) /\
    exists evs, trace w2 = trace w ++ evs /\ page_calls evs = [].
Proof.
  intros r self2 w2. unfold flood_backoff, owner_is_writer.
  destruct (writer w 0%nat); cbn.
  - intros E; inversion E; subst; cbn. repeat split; auto.
    exists []. rewrite app_nil_r. split; reflexivity.
  - destruct (60 <=? W).
    + unfold create_account. cbn.
      destruct (accounts w 0%nat) as [tok|e]; intros E; inversion E; subst; cbn;
        (repeat split; auto;
         [ intros Hd k; apply (Hd (S k))
         | eexists; rewrite <- !app_assoc; split; [reflexivity | reflexivity] ]).
    + unfold sleep. cbn.
      destruct (Qle_bool 0 (inject_Z (W + 1))); intros E; inversion E; subst; cbn;
        (repeat split; auto; try (intros Hd k; apply (Hd (S k)));
         eexists; rewrite <- !app_assoc; split; reflexivity).
Qed.

(** Whatever the scheduler says, a non-negative wait and an obliging
    provisioning service let the step end normally. *)
Lemma flood_backoff_ok (W : Z) (self : Telegraph) (w : World) :
  0 <= W -> provisioning_ok w ->
  exists self2 w2,
    flood_backoff W self w = (Return tt, self2, w2) /\ provisioning_ok w2.
Proof.
  intros HW Hp.
  destruct (writer w 0%nat) eqn:Hw.
  - rewrite (flood_backoff_blocked W self w Hw). do 2 eexists. split; [reflexivity|].
    exact Hp.
  - destruct (Z_lt_le_dec W 60) as [Hlt|Hge].
    + rewrite (flood_backoff_sleep W self w Hw (conj HW Hlt)).
      do 2 eexists. split; [reflexivity|]. exact Hp.
    + destruct (Hp 0%nat) as [tok Ht].
      rewrite (flood_backoff_rotate W self w tok Hw Hge Ht).
      do 2 eexists. split; [reflexivity|]. intros k. apply (Hp (S k)).
Qed.

(** ** The four ways through [create_page] *)

Lemma create_page_capped (args : PageArgs) (self : Telegraph) (w : World) :
  3 <= retries self ->
  create_page args self w = (Raise OverflowError, set_retries 0 self, w).
Proof.
  intros H. rewrite create_page_eq. apply Z.leb_le in H. rewrite H. reflexivity.
Qed.

Lemma create_page_success (args : PageArgs) (self : Telegraph) (w : World) (p : Page) :
  retries self < 3 -> pages w 0%nat = Return p ->
  create_page args self w =
  (Return p, set_retries 0 (set_last_run (now (attempted args self w)) self),
   attempted args self w).
Proof.
  intros H Hp. rewrite create_page_eq. apply Z.leb_gt in H. rewrite H.
  rewrite _create_page_answer, Hp. reflexivity.
Qed.

Lemma create_page_other_error (args : PageArgs) (self : Telegraph) (w : World) (e : exn) :
  retries self < 3 -> pages w 0%nat = Raise e -> is_flood e = false ->
  create_page args self w = (Raise e, self, attempted args self w).
Proof.
  intros H Hp He. rewrite create_page_eq. apply Z.leb_gt in H. rewrite H.
  rewrite _create_page_answer, Hp.
  destruct e as [m| | |]; try reflexivity.
  cbn in He. rewrite He. reflexivity.
Qed.

Lemma create_page_flood (args : PageArgs) (self : Telegraph) (w : World)
      (e : exn) (W : Z) :
  retries self < 3 -> pages w 0%nat = Raise e -> flood_wait e = Some W ->
  create_page args self w =
  match flood_backoff W (set_retries (retries self + 1) self)
                      (attempted args self w) with
  | (Return _, self2, w2) => create_page args self2 w2
  | (Raise e', self2, w2) => (Raise e', self2, w2)
  end.
Proof.
  intros H Hp He. rewrite create_page_eq. apply Z.leb_gt in H. rewrite H.
  rewrite _create_page_answer, Hp.
  destruct e as [m| | |]; try discriminate.
  cbn in He. destruct (Py.startswith "FLOOD_WAIT_" m); [|discriminate].
  rewrite He. reflexivity.
Qed.

(** A flood-control message whose tail is not a number ends the operation
    with the [ValueError] of line 50, before the counter is touched. *)
Lemma create_page_flood_unreadable (args : PageArgs) (self : Telegraph) (w : World)
      (m : string) :
  retries self < 3 -> pages w 0%nat = Raise (TelegraphException m) ->
  Py.startswith "FLOOD_WAIT_" m = true ->
  Py.int (Py.last_item (Py.split "_" m)) = None ->
  create_page args self w =
  (Raise (ValueError "invalid literal for int()"), self, attempted args self w).
Proof.
  intros H Hp Hs Hi. rewrite create_page_eq. apply Z.leb_gt in H. rewrite H.
  rewrite _create_page_answer, Hp, Hs, Hi. reflexivity.
Qed.

Lemma page_calls_app (l1 l2 : list event) :
  page_calls (l1 ++ l2) = page_calls l1 ++ page_calls l2.
Proof. apply filter_app. Qed.

Lemma attempted_provisioning (args : PageArgs) (self : Telegraph) (w : World) :
  provisioning_ok w -> provisioning_ok (attempted args self w).
Proof. intros H k. rewrite attempted_eq. cbn. apply H. Qed.

(** ** Rejections up to the cap *)

(** From a counter that leaves room for [n] attempts, [n] flood-control
    rejections in a row end in [OverflowError] after exactly [n] remote
    calls, with the counter at 0 and the answers after the [n]-th unread. *)
Lemma floods_overflow (args : PageArgs) (n : nat) :
  forall self w,
    retries self = 3 - Z.of_nat n ->
    (forall k, (k < n)%nat ->
               exists e W, pages w k = Raise e /\ flood_wait e = Some W /\ 0 <= W) ->
    provisioning_ok w ->
    exists self' w' evs,
      create_page args self w = (Raise OverflowError, self', w') /\
      retries self' = 0 /\
      last_run self' = last_run self /\
      trace w' = trace w ++ evs /\
      List.length (page_calls evs) = n /\
      (forall k, pages w' k = pages w (n + k)%nat).
Proof.
  induction n as [|n IH]; intros self w Hr Hfl Hp.
  - exists (set_retries 0 self), w, [].
    rewrite create_page_capped by (rewrite Hr; cbn; lia).
    rewrite app_nil_r. repeat split; reflexivity.
  - destruct (Hfl 0%nat ltac:(lia)) as (e & W & He & HW & H0).
    rewrite (create_page_flood args self w e W ltac:(lia) He HW).
    destruct (flood_backoff_ok W (set_retries (retries self + 1) self)
                (attempted args self w) H0 (attempted_provisioning _ _ _ Hp))
      as (self2 & w2 & Hb & Hp2).
    rewrite Hb.
    destruct (flood_backoff_frame _ _ _ _ _ _ Hb)
      as (Hr2 & Hl2 & Hpg & _ & evs1 & Ht1 & Hc1).
    cbn in Hr2, Hl2.
    destruct (IH self2 w2) as (self' & w' & evs & Hrun & Hr' & Hl' & Ht' & Hc' & Hpg').
    + rewrite Hr2, Hr. lia.
    + intros k Hk. destruct (Hfl (S k) ltac:(lia)) as (e' & W' & He' & HW' & H0').
      exists e', W'. rewrite Hpg, attempted_eq. cbn. unfold shift. auto.
    + exact Hp2.
    + exists self', w'. eexists. rewrite Hrun. split; [reflexivity|].
      split; [exact Hr'|]. split; [congruence|].
      split; [rewrite Ht', Ht1, attempted_eq; cbn; rewrite <- !app_assoc; reflexivity|].
      split.
      * rewrite !page_calls_app, !length_app, Hc', Hc1. cbn. lia.
      * intros k. rewrite Hpg', Hpg, attempted_eq. cbn. reflexivity.
Qed.

(** One rejection with a short wait: the operation goes on as the same
    call with the counter one higher, after exactly one remote call. *)
Lemma short_flood_step (args : PageArgs) (self : Telegraph) (w : World)
      (e : exn) (W : Z) :
  retries self < 3 -> pages w 0%nat = Raise e -> flood_wait e = Some W ->
  0 <= W < 60 ->
  exists w2 evs,
    create_page args self w =
      create_page args (set_retries (retries self + 1) self) w2 /\
    trace w2 = trace w ++ evs /\
    List.length (page_calls evs) = 1%nat /\
    (forall k, pages w2 k = pages w (S k)) /\
    (forall k, accounts w2 k = accounts w k).
Proof.
  intros Hr He HW Hs.
  rewrite (create_page_flood args self w e W Hr He HW).
  destruct (writer (attempted args self w) 0%nat) eqn:Hw.
  - rewrite (flood_backoff_blocked _ _ _ Hw).
    eexists. exists [EvSleep (throttle self w);
                     EvCreatePage (access_token self) args
                       (now w + throttle self w + delays w 0%nat)%Q
                       (now w + throttle self w + delays w 0%nat + 0 + delays w 1%nat)%Q
                       (pages w 0%nat)].
    split; [reflexivity|]. rewrite attempted_eq. cbn.
    repeat split; reflexivity.
  - rewrite (flood_backoff_sleep _ _ _ Hw Hs).
    eexists. eexists.
    split; [reflexivity|]. rewrite attempted_eq. cbn.
    rewrite <- app_assoc. repeat split; reflexivity.
Qed.

(** ** Three rejections in one operation *)

(** C1, as amended.  From a counter at 0, when the remote createPage answers
    a flood-control error with a non-negative wait on three consecutive
    attempts of one [create_page] and every provisioning call that a wait of
    60 or more causes is answered with a token, the operation raises
    [OverflowError] after exactly three remote calls and leaves the counter
    at 0; a further [create_page] on the same account then makes its remote
    call at once and returns the page it is given, as a first attempt does. *)
Theorem three_floods_overflow (args : PageArgs) (self : Telegraph) (w : World)
        (e1 e2 e3 : exn) (W1 W2 W3 : Z) :
  retries self = 0 ->
  pages w 0%nat = Raise e1 -> flood_wait e1 = Some W1 -> 0 <= W1 ->
  pages w 1%nat = Raise e2 -> flood_wait e2 = Some W2 -> 0 <= W2 ->
  pages w 2%nat = Raise e3 -> flood_wait e3 = Some W3 -> 0 <= W3 ->
  provisioning_ok w ->
  exists self' w' evs,
    create_page args self w = (Raise OverflowError, self', w') /\
    retries self' = 0 /\
    trace w' = trace w ++ evs /\
    List.length (page_calls evs) = 3%nat /\
    forall args2 p,
      pages w 3%nat = Return p ->
      exists self2 w2 start stop,
        create_page args2 self' w' = (Return p, self2, w2) /\
        trace w2 = trace w' ++ [EvSleep (throttle self' w');
                                EvCreatePage (access_token self') args2 start stop
                                             (Return p)].
Proof.
  intros Hr H1 F1 P1 H2 F2 P2 H3 F3 P3 Hp.
  destruct (floods_overflow args 3 self w) as (self' & w' & evs & Hrun & Hr' & _ & Ht & Hc & Hpg).
  - rewrite Hr. reflexivity.
  - intros k Hk. destruct k as [|[|[|k]]]; [eauto | eauto | eauto | lia].
  - exact Hp.
  - exists self', w', evs. repeat split; auto.
    intros args2 p H4.
    assert (pages w' 0%nat = Return p) as H0 by (rewrite Hpg; exact H4).
    rewrite (create_page_success args2 self' w' p ltac:(lia) H0).
    do 4 eexists. split; [reflexivity|].
    rewrite attempted_eq. cbn. rewrite H0. reflexivity.
Qed.

Lemma three_floods_overflow_witness :
  exists self' w' evs,
    create_page Sample.args (Sample.account 0)
      (Sample.world (Sample.script [Sample.flood "5"; Sample.flood "70";
                                    Sample.flood "59"])) =
      (Raise OverflowError, self', w') /\
    retries self' = 0 /\
    trace w' = [] ++ evs /\
    List.length (page_calls evs) = 3%nat.
Proof.
  destruct (three_floods_overflow Sample.args (Sample.account 0)
              (Sample.world (Sample.script [Sample.flood "5"; Sample.flood "70";
                                            Sample.flood "59"]))
              (TelegraphException "FLOOD_WAIT_5") (TelegraphException "FLOOD_WAIT_70")
              (TelegraphException "FLOOD_WAIT_59") 5 70 59)
    as (self' & w' & evs & H1 & H2 & H3 & H4 & _).
  - reflexivity.
  - reflexivity.
  - reflexivity.
  - lia.
  - reflexivity.
  - reflexivity.
  - lia.
  - reflexivity.
  - reflexivity.
  - lia.
  - intros k. exists "fresh-token". reflexivity.
  - exists self', w', evs. auto.
Defined.

(** C1 as first stated fails when the third rejection carries a wait of 60
    or more and the provisioning it causes is refused: the operation ends
    with the provisioning error and the counter stays at 3. *)
Lemma three_floods_without_overflow :
  let w := Sample.refusing (Sample.world (Sample.script [Sample.flood "5"; Sample.flood "5";
                                                  Sample.flood "70"])) in
  (forall k, (k < 3)%nat -> exists e W, pages w k = Raise e /\ flood_wait e = Some W) /\
  List.length (page_calls (trace (snd (create_page Sample.args (Sample.account 0) w)))) = 3%nat /\
  fst (fst (create_page Sample.args (Sample.account 0) w)) =
    Raise (TelegraphException "SHORT_NAME_REQUIRED") /\
  fst (fst (create_page Sample.args (Sample.account 0) w)) <> Raise OverflowError /\
  retries (snd (fst (create_page Sample.args (Sample.account 0) w))) = 3.
Proof.
  cbv zeta. split.
  - intros k Hk. destruct k as [|[|[|k]]]; [| | | lia];
      eexists; eexists; split; reflexivity.
  - split; [vm_compute; reflexivity|].
    split; [vm_compute; reflexivity|].
    split; [vm_compute; discriminate | vm_compute; reflexivity].
Qed.

(** ** Two rejections, then a page *)

(** C2.  From a counter at 0, when the remote createPage answers a
    flood-control error with a wait below 60 on attempts 1 and 2 and a page
    on attempt 3, [create_page] returns that page; the counter is 0 again,
    [last_run] holds the time at which the third remote call ended, the
    credential is the one the account had, and three remote calls were made,
    the last of them the answered one. *)
Theorem two_floods_then_page (args : PageArgs) (self : Telegraph) (w : World)
        (e1 e2 : exn) (W1 W2 : Z) (p : Page) :
  retries self = 0 ->
  pages w 0%nat = Raise e1 -> flood_wait e1 = Some W1 -> 0 <= W1 < 60 ->
  pages w 1%nat = Raise e2 -> flood_wait e2 = Some W2 -> 0 <= W2 < 60 ->
  pages w 2%nat = Return p ->
  exists self' w' evs start,
    create_page args self w = (Return p, self', w') /\
    retries self' = 0 /\
    last_run self' = now w' /\
    access_token self' = access_token self /\
    trace w' = trace w ++ evs ++
               [EvCreatePage (access_token self) args start (last_run self')
                             (Return p)] /\
    List.length (page_calls evs) = 2%nat.
Proof.
  intros Hr H1 F1 P1 H2 F2 P2 H3.
  destruct (short_flood_step args self w e1 W1 ltac:(lia) H1 F1 P1)
    as (w1 & evs1 & E1 & T1 & C1 & G1 & _).
  rewrite E1. clear E1.
  assert (pages w1 0%nat = Raise e2) as H2' by (rewrite G1; exact H2).
  assert (retries (set_retries (retries self + 1) self) < 3) as R2
      by (unfold set_retries; simpl; lia).
  destruct (short_flood_step args (set_retries (retries self + 1) self) w1 e2 W2
              R2 H2' F2 P2)
    as (w2 & evs2 & E2 & T2 & C2 & G2 & _).
  rewrite E2. clear E2.
  assert (pages w2 0%nat = Return p) as H3' by (rewrite G2, G1; exact H3).
  rewrite (create_page_success args _ w2 p);
    [ | unfold set_retries; simpl; lia | exact H3' ].
  rewrite attempted_eq. cbn zeta.
  eexists _, _, (evs1 ++ evs2 ++ [EvSleep _]), _.
  split; [reflexivity|].
  unfold set_retries, set_last_run. cbn [retries last_run access_token now trace].
  split; [reflexivity|]. split; [reflexivity|]. split; [reflexivity|].
  rewrite T2, T1, H3'.
  split.
  - rewrite <- !app_assoc. cbn [app]. reflexivity.
  - rewrite !page_calls_app, !length_app, C1, C2. reflexivity.
Qed.

Lemma two_floods_then_page_witness :
  exists self' w',
    create_page Sample.args (Sample.account 0)
      (Sample.world (Sample.script [Sample.flood "5"; Sample.flood "30"])) =
      (Return Sample.page, self', w') /\
    retries self' = 0 /\ last_run self' = now w'.
Proof.
  destruct (two_floods_then_page Sample.args (Sample.account 0)
              (Sample.world (Sample.script [Sample.flood "5"; Sample.flood "30"]))
              (TelegraphException "FLOOD_WAIT_5") (TelegraphException "FLOOD_WAIT_30")
              5 30 Sample.page)
    as (self' & w' & evs & start & H1 & H2 & H3 & _).
  - reflexivity.
  - reflexivity.
  - reflexivity.
  - lia.
  - reflexivity.
  - reflexivity.
  - lia.
  - reflexivity.
  - exists self', w'. auto.
Defined.

(** ** One rejection below the cap *)

(** The provisioning of a rotation refused: the error leaves through the
    [with] block and the account is as it was. *)
Lemma flood_backoff_refused (W : Z) (self : Telegraph) (w : World) (e : exn) :
  writer w 0%nat = false -> 60 <= W -> accounts w 0%nat = Raise e ->
  flood_backoff W self w =
  (Raise e, self,
   mkWorld (now w + 0 + delays w 0%nat)%Q
           (trace w ++ [EvWriteLock; EvCreateAccount (Raise e); EvWriteUnlock])
           (pages w) (shift (accounts w)) (infos w) (shift (writer w))
           (shift (delays w)) (draws w)).
Proof.
  intros Hw HW Ha. unfold flood_backoff. cbn. rewrite Hw. cbn.
  apply Z.leb_le in HW. rewrite HW.
  unfold create_account. cbn. rewrite Ha. unfold emit. cbn.
  rewrite <- !app_assoc. reflexivity.
Qed.

(** C3 as first stated fails: with the counter at 0, the write lock
    free and a rejection carrying a wait of 70, a refused provisioning
    leaves the credential as it was and ends the operation with the
    provisioning error after its one remote createPage; nothing is
    retried. *)
Lemma rotation_refused_no_retry :
  let self := Sample.account 0 in
  let w := Sample.refusing (Sample.world (Sample.script [Sample.flood "70"])) in
  retries self + 1 < 3 /\
  pages w 0%nat = Sample.flood "70" /\
  flood_wait (TelegraphException "FLOOD_WAIT_70") = Some 70 /\
  writer w 0%nat = false /\
  fst (fst (create_page Sample.args self w)) =
    Raise (TelegraphException "SHORT_NAME_REQUIRED") /\
  access_token (snd (fst (create_page Sample.args self w))) = access_token self /\
  page_calls (trace (snd (create_page Sample.args self w))) =
    [EvCreatePage "token" Sample.args 101 101 (Sample.flood "70")] /\
  pages (snd (create_page Sample.args self w)) 0%nat = Return Sample.page.
Proof.
  cbv zeta. split; [simpl; lia|]. repeat split; vm_compute; reflexivity.
Qed.

(** C3, as amended.  A flood-control rejection with a non-negative wait
    [W] that leaves the counter below the cap, met while no other caller
    owns the write lock, is followed under the write lock by exactly one of
    two things: for [W >= 60] one provisioning call and no sleep, for
    [W < 60] one sleep of [W + 1].  When the provisioning is answered with a
    token, that token becomes the credential of the same account record;
    then, as after the sleep, the operation goes on as [create_page] on the
    same arguments with the counter one higher.  When the provisioning is
    refused, its error is raised with the credential unchanged and the
    counter one higher, and nothing is retried. *)
Theorem flood_rotates_or_sleeps (args : PageArgs) (self : Telegraph) (w : World)
        (e : exn) (W : Z) :
  retries self + 1 < 3 ->
  pages w 0%nat = Raise e -> flood_wait e = Some W -> 0 <= W ->
  writer w 0%nat = false ->
  let start := (now w + throttle self w + delays w 0%nat)%Q in
  let stop := (start + 0 + delays w 1%nat)%Q in
  let rejected := [EvSleep (throttle self w);
                   EvCreatePage (access_token self) args start stop (Raise e)] in
  (60 <= W ->
   forall tok, accounts w 0%nat = Return tok ->
     create_page args self w =
     create_page args (set_token tok (set_retries (retries self + 1) self))
       (mkWorld (stop + 0 + delays w 2%nat)%Q
                (trace w ++ rejected ++
                 [EvWriteLock; EvCreateAccount (Return tok); EvWriteUnlock])
                (shift (pages w)) (shift (accounts w)) (infos w) (shift (writer w))
                (shift (shift (shift (delays w)))) (draws w))) /\
  (W < 60 ->
     create_page args self w =
     create_page args (set_retries (retries self + 1) self)
       (mkWorld (stop + inject_Z (W + 1) + delays w 2%nat)%Q
                (trace w ++ rejected ++
                 [EvWriteLock; EvSleep (inject_Z (W + 1)); EvWriteUnlock])
                (shift (pages w)) (accounts w) (infos w) (shift (writer w))
                (shift (shift (shift (delays w)))) (draws w))) /\
  (60 <= W ->
   forall e', accounts w 0%nat = Raise e' ->
     create_page args self w =
     (Raise e', set_retries (retries self + 1) self,
      mkWorld (stop + 0 + delays w 2%nat)%Q
              (trace w ++ rejected ++
               [EvWriteLock; EvCreateAccount (Raise e'); EvWriteUnlock])
              (shift (pages w)) (shift (accounts w)) (infos w) (shift (writer w))
              (shift (shift (shift (delays w)))) (draws w))).
Proof.
  intros Hr He HW H0 Hw. cbv zeta.
  rewrite (create_page_flood args self w e W ltac:(lia) He HW).
  rewrite attempted_eq. cbv zeta. rewrite He.
  split; [|split].
  - intros H60 tok Ht.
    rewrite flood_backoff_rotate with (tok := tok);
      [ | exact Hw | exact H60 | exact Ht ].
    cbn [now trace pages accounts infos writer delays draws].
    rewrite <- app_assoc. reflexivity.
  - intros H60.
    rewrite flood_backoff_sleep; [ | exact Hw | exact (conj H0 H60) ].
    cbn [now trace pages accounts infos writer delays draws].
    rewrite <- app_assoc. reflexivity.
  - intros H60 e' Ht.
    rewrite flood_backoff_refused with (e := e');
      [ | exact Hw | exact H60 | exact Ht ].
    cbn [now trace pages accounts infos writer delays draws].
    rewrite <- app_assoc. reflexivity.
Qed.

Lemma flood_rotates_or_sleeps_witness :
  create_page Sample.args (Sample.account 0)
    (Sample.world (Sample.script [Sample.flood "70"])) =
  create_page Sample.args (mkTelegraph "fresh-token" 1 100)
    (mkWorld (100 + Qmax (1 - (100 - 100)) 0 + 0 + 0 + 0 + 0 + 0)%Q
       ([] ++ [EvSleep (Qmax (1 - (100 - 100)) 0);
               EvCreatePage "token" Sample.args
                 (100 + Qmax (1 - (100 - 100)) 0 + 0)%Q
                 (100 + Qmax (1 - (100 - 100)) 0 + 0 + 0 + 0)%Q
                 (Sample.flood "70")] ++
        [EvWriteLock; EvCreateAccount (Return "fresh-token"); EvWriteUnlock])
       (shift (Sample.script [Sample.flood "70"]))
       (shift (fun _ => Return "fresh-token")) (fun _ => Return tt)
       (shift (fun _ => false)) (shift (shift (shift (fun _ => 0%Q))))
       (fun n => n)).
Proof.
  refine (proj1 (flood_rotates_or_sleeps Sample.args (Sample.account 0)
                   (Sample.world (Sample.script [Sample.flood "70"]))
                   (TelegraphException "FLOOD_WAIT_70") 70 _ _ _ _ _) _
                "fresh-token" _).
  - simpl. lia.
  - reflexivity.
  - reflexivity.
  - lia.
  - reflexivity.
  - lia.
  - reflexivity.
Defined.

(** ** The rejection that reaches the cap *)

(** C4 as first stated fails: with the counter at 2, a rejection carrying a
    wait of 5 takes the write lock and sleeps 6 before [OverflowError]. *)
Lemma cap_still_backs_off :
  let self := Sample.account 2 in
  let w := Sample.world (Sample.script [Sample.flood "5"]) in
  retries self + 1 = 3 /\
  pages w 0%nat = Sample.flood "5" /\
  flood_wait (TelegraphException "FLOOD_WAIT_5") = Some 5 /\
  fst (fst (create_page Sample.args self w)) = Raise OverflowError /\
  trace (snd (create_page Sample.args self w)) =
    trace (attempted Sample.args self w) ++
    [EvWriteLock; EvSleep (inject_Z 6); EvWriteUnlock] /\
  ~ cap_skips_backoff Sample.args self w.
Proof.
  cbv zeta. repeat split; try reflexivity.
  unfold cap_skips_backoff.
  destruct (create_page Sample.args (Sample.account 2)
              (Sample.world (Sample.script [Sample.flood "5"])))
    as [[r self'] w'] eqn:E.
  intros (_ & _ & Ht).
  apply (f_equal (fun x => List.length (trace (snd x)))) in E.
  cbn [snd] in E. rewrite Ht in E. vm_compute in E. discriminate.
Qed.

(** C4, as amended.  A flood-control rejection with a non-negative wait [W]
    that brings the counter to the cap ends the operation in [OverflowError]
    with the counter at 0 and without another remote createPage; before
    that, the step of lines 53-61 is carried out as below the cap: nothing
    when another caller owns the write lock, else a sleep of [W + 1] for
    [W < 60] and a provisioning, whose token the account keeps, for
    [W >= 60]. *)
Theorem flood_at_cap (args : PageArgs) (self : Telegraph) (w : World)
        (e : exn) (W : Z) :
  retries self + 1 = 3 ->
  pages w 0%nat = Raise e -> flood_wait e = Some W -> 0 <= W ->
  let start := (now w + throttle self w + delays w 0%nat)%Q in
  let stop := (start + 0 + delays w 1%nat)%Q in
  let rejected := [EvSleep (throttle self w);
                   EvCreatePage (access_token self) args start stop (Raise e)] in
  (writer w 0%nat = true ->
     create_page args self w =
     (Raise OverflowError, set_retries 0 self,
      mkWorld stop (trace w ++ rejected)
              (shift (pages w)) (accounts w) (infos w) (shift (writer w))
              (shift (shift (delays w))) (draws w))) /\
  (writer w 0%nat = false -> W < 60 ->
     create_page args self w =
     (Raise OverflowError, set_retries 0 self,
      mkWorld (stop + inject_Z (W + 1) + delays w 2%nat)%Q
              (trace w ++ rejected ++
               [EvWriteLock; EvSleep (inject_Z (W + 1)); EvWriteUnlock])
              (shift (pages w)) (accounts w) (infos w) (shift (writer w))
              (shift (shift (shift (delays w)))) (draws w))) /\
  (writer w 0%nat = false -> 60 <= W ->
   forall tok, accounts w 0%nat = Return tok ->
     create_page args self w =
     (Raise OverflowError, set_retries 0 (set_token tok self),
      mkWorld (stop + 0 + delays w 2%nat)%Q
              (trace w ++ rejected ++
               [EvWriteLock; EvCreateAccount (Return tok); EvWriteUnlock])
              (shift (pages w)) (shift (accounts w)) (infos w) (shift (writer w))
              (shift (shift (shift (delays w)))) (draws w))).
Proof.
  intros Hr He HW H0. cbv zeta.
  rewrite (create_page_flood args self w e W ltac:(lia) He HW).
  rewrite attempted_eq. cbv zeta. rewrite He.
  split; [|split].
  - intros Hw.
    rewrite flood_backoff_blocked; [ | exact Hw ].
    rewrite create_page_capped by (unfold set_retries; simpl; lia).
    reflexivity.
  - intros Hw H60.
    rewrite flood_backoff_sleep; [ | exact Hw | exact (conj H0 H60) ].
    rewrite create_page_capped by (unfold set_retries; simpl; lia).
    cbn [now trace pages accounts infos writer delays draws].
    rewrite <- app_assoc. reflexivity.
  - intros Hw H60 tok Ht.
    rewrite flood_backoff_rotate with (tok := tok);
      [ | exact Hw | exact H60 | exact Ht ].
    rewrite create_page_capped by (unfold set_token, set_retries; simpl; lia).
    cbn [now trace pages accounts infos writer delays draws].
    rewrite <- app_assoc. reflexivity.
Qed.

Lemma flood_at_cap_witness :
  create_page Sample.args (Sample.account 2)
    (Sample.world (Sample.script [Sample.flood "5"])) =
  (Raise OverflowError, set_retries 0 (Sample.account 2),
   mkWorld (100 + throttle (Sample.account 2)
                    (Sample.world (Sample.script [Sample.flood "5"]))
            + 0 + 0 + 0 + inject_Z (5 + 1) + 0)%Q
     ([] ++ [EvSleep (throttle (Sample.account 2)
                        (Sample.world (Sample.script [Sample.flood "5"])));
             EvCreatePage "token" Sample.args
               (100 + throttle (Sample.account 2)
                        (Sample.world (Sample.script [Sample.flood "5"])) + 0)%Q
               (100 + throttle (Sample.account 2)
                        (Sample.world (Sample.script [Sample.flood "5"]))
                + 0 + 0 + 0)%Q
               (Sample.flood "5")] ++
      [EvWriteLock; EvSleep (inject_Z (5 + 1)); EvWriteUnlock])
     (shift (Sample.script [Sample.flood "5"]))
     (fun _ => Return "fresh-token") (fun _ => Return tt)
     (shift (fun _ => false)) (shift (shift (shift (fun _ => 0%Q))))
     (fun n => n)).
Proof.
  refine (proj1 (proj2 (flood_at_cap Sample.args (Sample.account 2)
                          (Sample.world (Sample.script [Sample.flood "5"]))
                          (TelegraphException "FLOOD_WAIT_5") 5 _ _ _ _)) _ _).
  - reflexivity.
  - reflexivity.
  - reflexivity.
  - lia.
  - reflexivity.
  - lia.
Defined.

(** ** Errors that are not flood control *)

(** C5.  When the remote createPage answers an error that line 49 does not
    take for flood control, [create_page] raises that very error after this
    one remote call: the account record is returned as it was, and the only
    effects are the throttling sleep and the call. *)
Theorem other_error_propagates (args : PageArgs) (self : Telegraph) (w : World)
        (e : exn) :
  retries self < 3 ->
  pages w 0%nat = Raise e -> is_flood e = false ->
  let start := (now w + throttle self w + delays w 0%nat)%Q in
  let stop := (start + 0 + delays w 1%nat)%Q in
  create_page args self w =
  (Raise e, self,
   mkWorld stop
           (trace w ++ [EvSleep (throttle self w);
                        EvCreatePage (access_token self) args start stop (Raise e)])
           (shift (pages w)) (accounts w) (infos w) (writer w)
           (shift (shift (delays w))) (draws w)).
Proof.
  intros Hr He Hf. cbv zeta.
  rewrite (create_page_other_error args self w e Hr He Hf).
  rewrite attempted_eq. cbv zeta. rewrite He. reflexivity.
Qed.

Lemma other_error_propagates_witness :
  fst (create_page Sample.args (Sample.account 0)
         (Sample.world (Sample.script [Raise (TelegraphException "CONTENT_TOO_BIG")]))) =
  (Raise (TelegraphException "CONTENT_TOO_BIG"), Sample.account 0).
Proof.
  rewrite (other_error_propagates Sample.args (Sample.account 0)
             (Sample.world (Sample.script [Raise (TelegraphException "CONTENT_TOO_BIG")]))
             (TelegraphException "CONTENT_TOO_BIG")).
  - reflexivity.
  - simpl. lia.
  - reflexivity.
  - reflexivity.
Defined.

(** C10.  An error that is not flood control leaves the counter as it
    finds it: [create_page] hands the account record back unchanged.  So
    when one rejection with a short wait came first in the same operation,
    the operation ends in that error with the counter at 1, and the next
    [create_page] on the account ends in [OverflowError] after two
    rejections, where an account with the counter at 0 bears three remote
    calls. *)
Theorem residual_counter (args args2 : PageArgs) (self : Telegraph) (w : World)
        (e1 e e3 e4 : exn) (W1 W3 W4 : Z) :
  retries self = 0 ->
  pages w 0%nat = Raise e1 -> flood_wait e1 = Some W1 -> 0 <= W1 < 60 ->
  pages w 1%nat = Raise e -> is_flood e = false ->
  pages w 2%nat = Raise e3 -> flood_wait e3 = Some W3 -> 0 <= W3 ->
  pages w 3%nat = Raise e4 -> flood_wait e4 = Some W4 -> 0 <= W4 ->
  provisioning_ok w ->
  (forall self0 w0,
      retries self0 < 3 -> pages w0 0%nat = Raise e ->
      create_page args self0 w0 = (Raise e, self0, attempted args self0 w0)) /\
  exists self1 w1,
    create_page args self w = (Raise e, self1, w1) /\
    retries self1 = 1 /\
    exists self2 w2 evs,
      create_page args2 self1 w1 = (Raise OverflowError, self2, w2) /\
      retries self2 = 0 /\
      trace w2 = trace w1 ++ evs /\
      List.length (page_calls evs) = 2%nat.
Proof.
  intros Hr H1 F1 P1 He Hf H3 F3 P3 H4 F4 P4 Hp.
  split.
  - intros self0 w0 Hr0 He0. apply create_page_other_error; assumption.
  - destruct (short_flood_step args self w e1 W1 ltac:(lia) H1 F1 P1)
      as (wa & evs1 & E1 & _ & _ & G1 & A1).
    rewrite E1. clear E1.
    assert (retries (set_retries (retries self + 1) self) < 3) as R1
        by (unfold set_retries; simpl; lia).
    assert (pages wa 0%nat = Raise e) as He' by (rewrite G1; exact He).
    rewrite (create_page_other_error args _ wa e R1 He' Hf).
    eexists _, _. split; [reflexivity|].
    split; [unfold set_retries; simpl; lia|].
    destruct (floods_overflow args2 2 (set_retries (retries self + 1) self)
                (attempted args (set_retries (retries self + 1) self) wa))
      as (self2 & w2 & evs & Hrun & Hr2 & _ & Ht & Hc & _).
    + unfold set_retries; simpl; lia.
    + intros k Hk. rewrite attempted_eq. cbn [pages]. unfold shift. rewrite G1.
      destruct k as [|[|k]]; [eauto | eauto | lia].
    + apply attempted_provisioning. intros k. rewrite A1. apply Hp.
    + exists self2, w2, evs. auto.
Qed.

Lemma residual_counter_witness :
  exists self1 w1,
    create_page Sample.args (Sample.account 0)
      (Sample.world (Sample.script [Sample.flood "5";
                                    Raise (TelegraphException "CONTENT_TOO_BIG");
                                    Sample.flood "5"; Sample.flood "5"])) =
      (Raise (TelegraphException "CONTENT_TOO_BIG"), self1, w1) /\
    retries self1 = 1 /\
    exists self2 w2 evs,
      create_page Sample.args self1 w1 = (Raise OverflowError, self2, w2) /\
      retries self2 = 0 /\
      trace w2 = trace w1 ++ evs /\
      List.length (page_calls evs) = 2%nat.
Proof.
  refine (proj2 (residual_counter Sample.args Sample.args (Sample.account 0)
                   (Sample.world (Sample.script [Sample.flood "5";
                                    Raise (TelegraphException "CONTENT_TOO_BIG");
                                    Sample.flood "5"; Sample.flood "5"]))
                   (TelegraphException "FLOOD_WAIT_5")
                   (TelegraphException "CONTENT_TOO_BIG")
                   (TelegraphException "FLOOD_WAIT_5")
                   (TelegraphException "FLOOD_WAIT_5") 5 5 5
                   _ _ _ _ _ _ _ _ _ _ _ _ _)).
  - reflexivity.
  - reflexivity.
  - reflexivity.
  - lia.
  - reflexivity.
  - reflexivity.
  - reflexivity.
  - reflexivity.
  - lia.
  - reflexivity.
  - reflexivity.
  - lia.
  - intros k. exists "fresh-token". reflexivity.
Defined.

(** ** The pool *)

Lemma store_length (i : nat) (a : Telegraph) (l : list Telegraph) :
  List.length (store i a l) = List.length l.
Proof.
  revert i. induction l as [|h t IH]; intros [|i]; simpl; auto.
Qed.

Lemma store_same (i : nat) (a : Telegraph) (l : list Telegraph) :
  (i < List.length l)%nat -> nth_error (store i a l) i = Some a.
Proof.
  revert i. induction l as [|h t IH]; intros [|i] H; simpl in *; try lia; auto.
  apply IH. lia.
Qed.

Lemma store_other (i j : nat) (a : Telegraph) (l : list Telegraph) :
  i <> j -> nth_error (store i a l) j = nth_error l j.
Proof.
  revert i j. induction l as [|h t IH]; intros [|i] [|j] H; simpl; auto; try lia.
Qed.

(** C6.  A pool without accounts is not valid, counts 0, and its
    [create_page] raises the not-configured error with the world untouched:
    no draw, no remote call.  A pool with accounts draws one index below its
    count, the draw [i] picking the member at position [i] so that every
    member answers to exactly one draw, and returns what that member's
    [create_page] returns, run in the world as it was but for the draw; the
    member's new state takes its place and the other members stay. *)
Theorem pool_create_page (args : PageArgs) (self : API) (w : World) :
  (_accounts self = [] ->
     valid self = false /\ count self = 0%nat /\
     API_create_page args self w = (Raise NotConfigured, self, w)) /\
  (_accounts self <> [] ->
     valid self = true /\
     let i := (draws w 0%nat mod count self)%nat in
     let w1 := mkWorld (now w) (trace w ++ [EvChoice i]) (pages w) (accounts w)
                       (infos w) (writer w) (delays w) (shift (draws w)) in
     (i < count self)%nat /\
     ((draws w 0%nat < count self)%nat -> i = draws w 0%nat) /\
     exists member,
       nth_error (_accounts self) i = Some member /\
       forall r member' w2,
         create_page args member w1 = (r, member', w2) ->
         exists self',
           API_create_page args self w = (r, self', w2) /\
           count self' = count self /\
           nth_error (_accounts self') i = Some member' /\
           forall j, j <> i ->
                     nth_error (_accounts self') j = nth_error (_accounts self) j).
Proof.
  destruct self as [accs]. unfold valid, count, API_create_page. cbn [_accounts].
  split.
  - intros ->. repeat split.
  - intros Hne. destruct accs as [|first rest]; [contradiction|].
    split; [reflexivity|]. cbv zeta.
    set (n := List.length (first :: rest)).
    assert (n <> 0)%nat as Hn by (unfold n; simpl; lia).
    pose proof (Nat.mod_upper_bound (draws w 0%nat) n Hn) as Hi.
    split; [exact Hi|].
    split; [intros Hlt; apply Nat.mod_small; exact Hlt|].
    destruct (nth_error (first :: rest) (draws w 0%nat mod n)) as [member|] eqn:Hm.
    + exists member. split; [reflexivity|].
      intros r member' w2 Hrun.
      unfold randbelow. cbv zeta.
      change (count {| _accounts := first :: rest |}) with n.
      rewrite (nth_error_nth _ _ first Hm). rewrite Hrun.
      eexists. split; [reflexivity|]. cbn [_accounts].
      split; [apply store_length|].
      split; [apply store_same; exact Hi|].
      intros j Hj. apply store_other. auto.
    + apply nth_error_None in Hm. fold n in Hm. lia.
Qed.

(** ** Building the pool *)








(** ** The size of the semaphore *)


(** ** Spacing of the remote calls *)

Lemma spaced_app (l1 l2 : list event) :
  forall last,
    spaced last (l1 ++ l2) <->
    spaced last l1 /\ spaced (last_success last l1) l2.
Proof.
  induction l1 as [|ev l1 IH]; intros last; simpl.
  - tauto.
  - destruct ev as [d|tok a start stop [p|e]| | | | |]; simpl; rewrite ?IH; tauto.
Qed.

Lemma last_success_app (l1 l2 : list event) :
  forall last,
    last_success last (l1 ++ l2) = last_success (last_success last l1) l2.
Proof.
  induction l1 as [|ev l1 IH]; intros last; simpl; [reflexivity|].
  destruct ev as [d|tok a start stop [p|e]| | | | |]; simpl; apply IH.
Qed.

Lemma quiet_spaced (evs : list event) :
  forall last,
    page_calls evs = [] -> spaced last evs /\ last_success last evs = last.
Proof.
  induction evs as [|ev evs IH]; intros last H; simpl; [auto|].
  destruct ev; simpl in H; try discriminate; apply IH; exact H.
Qed.

Lemma attempted_delays (args : PageArgs) (self : Telegraph) (w : World) :
  delays_ok w -> delays_ok (attempted args self w).
Proof. intros H k. rewrite attempted_eq. cbn. apply (H (S (S k))). Qed.

(** One pass through [_create_page] keeps the discipline. *)
Lemma attempt_spaced (args : PageArgs) (self : Telegraph) (w : World) :
  delays_ok w ->
  exists evs,
    trace (attempted args self w) = trace w ++ evs /\
    spaced (last_run self) evs /\
    last_success (last_run self) evs =
      match pages w 0%nat with
      | Return _ => now (attempted args self w)
      | Raise _ => last_run self
      end.
Proof.
  intros Hd. rewrite attempted_eq. cbv zeta. eexists. split; [reflexivity|].
  cbn [now spaced last_success].
  pose proof (throttle_enough self w) as Ht.
  pose proof (Hd 0%nat) as H0. pose proof (Hd 1%nat) as H1.
  split.
  - split; [lra|]. split; [lra|]. destruct (pages w 0%nat); exact I.
  - destruct (pages w 0%nat); reflexivity.
Qed.

(** Whatever the service answers, every remote createPage of one
    [create_page] starts at least one unit after the end of the latest
    answered one, and [last_run] follows. *)
Lemma create_page_spaced (args : PageArgs) (n : nat) :
  forall self w,
    Z.to_nat (3 - retries self) = n -> delays_ok w ->
    forall r self' w',
      create_page args self w = (r, self', w') ->
      exists evs,
        trace w' = trace w ++ evs /\
        spaced (last_run self) evs /\
        last_run self' = last_success (last_run self) evs /\
        delays_ok w'.
Proof.
  induction n as [|n IH]; intros self w Hn Hd r self' w'.
  - rewrite create_page_capped by lia.
    intros E; inversion E; subst. exists []. rewrite app_nil_r. cbn. auto.
  - assert (retries self < 3) as Hr by lia.
    destruct (attempt_spaced args self w Hd) as (evs0 & T0 & S0 & L0).
    pose proof (attempted_delays args self w Hd) as Hd0.
    destruct (pages w 0%nat) as [p|e] eqn:Hp.
    + rewrite (create_page_success args self w p Hr Hp).
      intros E; inversion E; subst. exists evs0.
      cbn [last_run set_retries set_last_run]. auto.
    + assert (forall x, (Raise e, self, attempted args self w) = x ->
                        x = (r, self', w') ->
                        exists evs,
                          trace w' = trace w ++ evs /\
                          spaced (last_run self) evs /\
                          last_run self' = last_success (last_run self) evs /\
                          delays_ok w') as Hstop.
      { intros x <- E. inversion E; subst. exists evs0. auto. }
      destruct (is_flood e) eqn:Hf.
      2:{ rewrite (create_page_other_error args self w e Hr Hp Hf).
          apply (Hstop _ eq_refl). }
      destruct e as [m| | |]; try discriminate. cbn in Hf.
      destruct (Py.int (Py.last_item (Py.split "_" m))) as [W|] eqn:Hi.
      2:{ rewrite (create_page_flood_unreadable args self w m Hr Hp Hf Hi).
          intros E; inversion E; subst. exists evs0. auto. }
      rewrite (create_page_flood args self w (TelegraphException m) W Hr Hp)
        by (cbn; rewrite Hf; exact Hi).
      destruct (flood_backoff W (set_retries (retries self + 1) self)
                  (attempted args self w)) as [[[u|e'] self2] w2] eqn:Hb;
        destruct (flood_backoff_frame _ _ _ _ _ _ Hb)
          as (Hr2 & Hl2 & _ & Hd2 & evs1 & T1 & Q1);
        cbn [retries last_run set_retries] in Hr2, Hl2;
        destruct (quiet_spaced evs1 (last_run self) Q1) as (S1 & L1).
      * intros E.
        destruct (IH self2 w2 ltac:(lia) (Hd2 Hd0) r self' w' E)
          as (evs & T & S & L & D).
        exists (evs0 ++ evs1 ++ evs).
        split; [rewrite T, T1, T0, <- !app_assoc; reflexivity|].
        rewrite !spaced_app, !last_success_app, L0, L1.
        rewrite Hl2 in S, L. auto.
      * intros E; inversion E; subst.
        exists (evs0 ++ evs1).
        split; [rewrite T1, T0, <- !app_assoc; reflexivity|].
        rewrite !spaced_app, !last_success_app, L0, L1. auto.
Qed.

Lemma create_pages_spaced (calls : list PageArgs) :
  forall self w,
    delays_ok w ->
    exists evs,
      trace (snd (create_pages calls self w)) = trace w ++ evs /\
      spaced (last_run self) evs /\
      last_run (snd (fst (create_pages calls self w))) =
        last_success (last_run self) evs /\
      delays_ok (snd (create_pages calls self w)).
Proof.
  induction calls as [|args rest IH]; intros self w Hd; simpl.
  - exists []. rewrite app_nil_r. cbn. auto.
  - destruct (create_page args self w) as [[r self1] w1] eqn:E.
    destruct (create_page_spaced args _ self w eq_refl Hd r self1 w1 E)
      as (evs1 & T1 & S1 & L1 & D1).
    destruct (IH self1 w1 D1) as (evs2 & T2 & S2 & L2 & D2).
    destruct (create_pages rest self1 w1) as [[rs self2] w2].
    cbn [fst snd] in *.
    exists (evs1 ++ evs2).
    split; [rewrite T2, T1, <- app_assoc; reflexivity|].
    rewrite spaced_app, last_success_app, <- L1. auto.
Qed.

(** When every remote createPage is answered with a page, no event is a
    rejected call, and every [create_page] of the sequence returns a page
    once the counter is below the cap. *)
Lemma create_pages_answered (calls : list PageArgs) :
  forall self w,
    (forall k, exists p, pages w k = Return p) ->
    exists evs,
      trace (snd (create_pages calls self w)) = trace w ++ evs /\
      Forall answered evs /\
      (retries self < 3 -> Forall is_return (fst (fst (create_pages calls self w)))).
Proof.
  induction calls as [|args rest IH]; intros self w Hp; simpl.
  - exists []. rewrite app_nil_r. auto.
  - destruct (Z_lt_le_dec (retries self) 3) as [Hr|Hr].
    + destruct (Hp 0%nat) as [p H0].
      rewrite (create_page_success args self w p Hr H0).
      destruct (IH (set_retries 0 (set_last_run (now (attempted args self w)) self))
                   (attempted args self w))
        as (evs & T & A & R).
      { intros k. rewrite attempted_eq. cbn. apply (Hp (S k)). }
      destruct (create_pages rest _ (attempted args self w)) as [[rs self2] w2].
      cbn [fst snd] in *.
      eexists. split; [rewrite T, attempted_eq; cbn; rewrite <- app_assoc; reflexivity|].
      split.
      * cbn [app]. constructor; [exact I|]. constructor; [rewrite H0; exact I|exact A].
      * intros _. constructor; [exact I|]. apply R. cbn. lia.
    + rewrite (create_page_capped args self w Hr).
      destruct (IH (set_retries 0 self) w Hp) as (evs & T & A & R).
      destruct (create_pages rest (set_retries 0 self) w) as [[rs self2] w2].
      cbn [fst snd] in *.
      exists evs. split; [exact T|]. split; [exact A|]. intros; lia.
Qed.

Lemma spaced_answered_separated (evs : list event) :
  forall last prev,
    spaced last evs -> Forall answered evs ->
    match prev with
    | Some (start0, stop0) => (start0 <= last)%Q /\ (stop0 <= last)%Q
    | None => True
    end ->
    separated prev evs.
Proof.
  induction evs as [|ev evs IH]; intros last prev S A P; simpl; [exact I|].
  inversion A as [|? ? A1 A2]; subst.
  destruct ev as [d|tok a start stop [p|e]| | | | |]; simpl in *;
    try (apply (IH last prev); assumption); try contradiction.
  destruct S as (S1 & S2 & S3).
  split.
  - destruct prev as [[start0 stop0]|]; [|exact I].
    destruct P as [P1 P2]. split; lra.
  - apply (IH stop _ S3 A2). split; [exact S2 | lra].
Qed.

(** C8 as first stated fails: one [create_page] that returns a page
    after a rejection met while another caller holds the write lock makes
    two remote calls on the same credential with no time between them, the
    second starting when the first ended; so does one that rotates the
    credential after a wait of 70. *)
Lemma retried_call_not_separated :
  let self := Sample.account 0 in
  let busy := Scene.busy (Sample.world (Sample.script [Sample.flood "5"])) in
  let free := Sample.world (Sample.script [Sample.flood "70"]) in
  delays_ok busy /\
  fst (fst (create_pages [Sample.args] self busy)) = [Return Sample.page] /\
  trace (snd (create_pages [Sample.args] self busy)) =
    [EvSleep 1; EvCreatePage "token" Sample.args 101 101 (Sample.flood "5");
     EvSleep 0; EvCreatePage "token" Sample.args 101 101 (Return Sample.page)] /\
  ~ separated None (trace (snd (create_pages [Sample.args] self busy))) /\
  fst (fst (create_pages [Sample.args] self free)) = [Return Sample.page] /\
  page_calls (trace (snd (create_pages [Sample.args] self free))) =
    [EvCreatePage "token" Sample.args 101 101 (Sample.flood "70");
     EvCreatePage "fresh-token" Sample.args 101 101 (Return Sample.page)] /\
  ~ separated None (trace (snd (create_pages [Sample.args] self free))).
Proof.
  cbv zeta.
  assert (trace (snd (create_pages [Sample.args] (Sample.account 0)
                        (Scene.busy (Sample.world (Sample.script [Sample.flood "5"]))))) =
          [EvSleep 1; EvCreatePage "token" Sample.args 101 101 (Sample.flood "5");
           EvSleep 0; EvCreatePage "token" Sample.args 101 101 (Return Sample.page)])
    as Tbusy by (vm_compute; reflexivity).
  assert (trace (snd (create_pages [Sample.args] (Sample.account 0)
                        (Sample.world (Sample.script [Sample.flood "70"])))) =
          [EvSleep 1; EvCreatePage "token" Sample.args 101 101 (Sample.flood "70");
           EvWriteLock; EvCreateAccount (Return "fresh-token"); EvWriteUnlock;
           EvSleep 0;
           EvCreatePage "fresh-token" Sample.args 101 101 (Return Sample.page)])
    as Tfree by (vm_compute; reflexivity).
  split; [intros k; simpl; unfold Qle; simpl; lia|].
  split; [vm_compute; reflexivity|].
  split; [exact Tbusy|].
  split.
  { rewrite Tbusy. cbn [separated]. intros (_ & (H & _) & _).
    unfold Qle in H. simpl in H. lia. }
  split; [vm_compute; reflexivity|].
  split; [rewrite Tfree; reflexivity|].
  rewrite Tfree. cbn [separated]. intros (_ & (H & _) & _).
  unfold Qle in H. simpl in H. lia.
Qed.

(** C8, as amended.  Over any sequence of [create_page] calls on one
    account, in a world where no blocking step is cut short: every remote
    createPage starts at least one time unit after the end of the latest one
    that was answered with a page, or after [last_run] as the account
    brought it.  When all remote calls are answered with pages, so that no
    call of the sequence retries and every one returns a page, consecutive
    remote calls therefore lie at least one unit apart, start to start and
    end to start.  The wait is the sleep of line 69: each pass sleeps
    [max(1 - (now - last_run), 0)] and then makes its remote call. *)
Theorem calls_one_unit_apart (calls : list PageArgs) (self : Telegraph) (w : World) :
  delays_ok w ->
  exists evs,
    trace (snd (create_pages calls self w)) = trace w ++ evs /\
    spaced (last_run self) evs /\
    ((forall k, exists p, pages w k = Return p) ->
       Forall answered evs /\
       separated None evs /\
       (retries self < 3 ->
          Forall is_return (fst (fst (create_pages calls self w))))) /\
    (forall args self0 w0,
        exists start stop,
          trace (snd (_create_page args self0 w0)) =
            trace w0 ++ [EvSleep (Qmax (1 - (now w0 - last_run self0)) 0);
                         EvCreatePage (access_token self0) args start stop
                                      (pages w0 0%nat)] /\
          (delays_ok w0 -> (last_run self0 + 1 <= start)%Q)).
Proof.
  intros Hd.
  destruct (create_pages_spaced calls self w Hd) as (evs & T & S & _ & _).
  exists evs. split; [exact T|]. split; [exact S|]. split.
  - intros Hp.
    destruct (create_pages_answered calls self w Hp) as (evs' & T' & A & R).
    rewrite T in T'. apply app_inv_head in T'. subst evs'.
    split; [exact A|]. split; [|exact R].
    apply (spaced_answered_separated evs (last_run self) None S A I).
  - intros args self0 w0.
    change (snd (_create_page args self0 w0)) with (attempted args self0 w0).
    rewrite attempted_eq. cbv zeta. cbn [trace].
    do 2 eexists. split; [reflexivity|].
    intros Hd0. pose proof (throttle_enough self0 w0) as Ht.
    pose proof (Hd0 0%nat) as H0. lra.
Qed.

Lemma calls_one_unit_apart_witness :
  exists evs,
    trace (snd (create_pages [Sample.args; Sample.args] (Sample.account 0)
                  (Sample.world (Sample.script [])))) = [] ++ evs /\
    spaced 100 evs /\
    separated None evs.
Proof.
  destruct (calls_one_unit_apart [Sample.args; Sample.args] (Sample.account 0)
              (Sample.world (Sample.script [])))
    as (evs & T & S & A & _).
  - intros k. simpl. unfold Qle. simpl. lia.
  - exists evs. split; [exact T|]. split; [exact S|].
    apply A. intros k. exists Sample.page. reflexivity.
Defined.

(** * Further properties of the module *)

(** ** Every way out of lines 53-61 *)

Lemma flood_backoff_cases (W : Z) (self : Telegraph) (w : World) :
  forall r self2 w2,
    flood_backoff W self w = (r, self2, w2) ->
    (writer w 0%nat = true /\ r = Return tt /\ self2 = self /\
     trace w2 = trace w /\ now w2 = now w) \/
    (writer w 0%nat = false /\ 60 <= W /\
     exists tok, accounts w 0%nat = Return tok /\ r = Return tt /\
                 self2 = set_token tok self /\
                 trace w2 = trace w ++ [EvWriteLock; EvCreateAccount (Return tok);
                                        EvWriteUnlock] /\
                 now w2 = (now w + 0 + delays w 0%nat)%Q) \/
    (writer w 0%nat = false /\ 60 <= W /\
     exists e, accounts w 0%nat = Raise e /\ r = Raise e /\ self2 = self /\
               trace w2 = trace w ++ [EvWriteLock; EvCreateAccount (Raise e);
                                      EvWriteUnlock] /\
               now w2 = (now w + 0 + delays w 0%nat)%Q) \/
    (writer w 0%nat = false /\ W < 60 /\ 0 <= W + 1 /\ r = Return tt /\
     self2 = self /\
     trace w2 = trace w ++ [EvWriteLock; EvSleep (inject_Z (W + 1)); EvWriteUnlock] /\
     now w2 = (now w + inject_Z (W + 1) + delays w 0%nat)%Q) \/
    (writer w 0%nat = false /\ W < 60 /\ W + 1 < 0 /\
     r = Raise (ValueError "sleep length must be non-negative") /\
     self2 = self /\
     trace w2 = trace w ++ [EvWriteLock; EvWriteUnlock] /\ now w2 = now w).
Proof.
  intros r self2 w2. unfold flood_backoff, owner_is_writer.
  destruct (writer w 0%nat) eqn:Hw; cbn.
  - intros E; inversion E; subst. left. cbn. auto.
  - destruct (60 <=? W) eqn:H60.
    + apply Z.leb_le in H60. unfold create_account. cbn.
      destruct (accounts w 0%nat) as [tok|e] eqn:Ha; intros E; inversion E; subst;
        right.
      * left. split; [reflexivity|]. split; [exact H60|]. exists tok.
        cbn. rewrite <- !app_assoc. auto.
      * right. left. split; [reflexivity|]. split; [exact H60|]. exists e.
        cbn. rewrite <- !app_assoc. auto.
    + apply Z.leb_gt in H60. unfold sleep.
      destruct (Qle_bool 0 (inject_Z (W + 1))) eqn:Hs; intros E; inversion E; subst;
        right; right; right.
      * left. apply Qle_bool_iff in Hs. unfold Qle in Hs. simpl in Hs.
        cbn. rewrite <- !app_assoc. repeat split; auto; lia.
      * right. assert (W + 1 < 0) as Hneg.
        { destruct (Z_lt_le_dec (W + 1) 0) as [H|H]; [exact H|].
          apply inject_Z_nonneg in H. apply Qle_bool_iff in H. congruence. }
        cbn. rewrite <- !app_assoc. repeat split; auto.
Qed.

(** ** Induction over the runs of [create_page] *)

Lemma create_page_runs (args : PageArgs)
      (P : Telegraph -> World -> outcome Page * Telegraph * World -> Prop) :
  (forall self w, 3 <= retries self ->
     P self w (Raise OverflowError, set_retries 0 self, w)) ->
  (forall self w p, retries self < 3 -> pages w 0%nat = Return p ->
     P self w (Return p,
               set_retries 0 (set_last_run (now (attempted args self w)) self),
               attempted args self w)) ->
  (forall self w e, retries self < 3 -> pages w 0%nat = Raise e ->
     is_flood e = false ->
     P self w (Raise e, self, attempted args self w)) ->
  (forall self w e, retries self < 3 -> pages w 0%nat = Raise e ->
     is_flood e = true -> flood_wait e = None ->
     P self w (Raise (ValueError "invalid literal for int()"), self,
               attempted args self w)) ->
  (forall self w e W e' self2 w2, retries self < 3 -> pages w 0%nat = Raise e ->
     flood_wait e = Some W ->
     flood_backoff W (set_retries (retries self + 1) self) (attempted args self w) =
       (Raise e', self2, w2) ->
     P self w (Raise e', self2, w2)) ->
  (forall self w e W self2 w2, retries self < 3 -> pages w 0%nat = Raise e ->
     flood_wait e = Some W ->
     flood_backoff W (set_retries (retries self + 1) self) (attempted args self w) =
       (Return tt, self2, w2) ->
     P self2 w2 (create_page args self2 w2) ->
     P self w (create_page args self2 w2)) ->
  forall self w, P self w (create_page args self w).
Proof.
  intros Hcap Hok Hother Hbad Hraise Hretry self.
  remember (Z.to_nat (3 - retries self)) as n eqn:Hn.
  revert self Hn. induction n as [|n IH]; intros self Hn w.
  - rewrite create_page_capped by lia. apply Hcap. lia.
  - assert (retries self < 3) as Hr by lia.
    destruct (pages w 0%nat) as [p|e] eqn:Hp.
    + rewrite (create_page_success args self w p Hr Hp). apply Hok; assumption.
    + destruct (is_flood e) eqn:Hf.
      2:{ rewrite (create_page_other_error args self w e Hr Hp Hf).
          apply Hother; assumption. }
      destruct (flood_wait e) as [W|] eqn:HW.
      2:{ destruct e as [m| | |]; try discriminate. cbn in Hf, HW.
          rewrite Hf in HW.
          rewrite (create_page_flood_unreadable args self w m Hr Hp Hf HW).
          apply (Hbad self w (TelegraphException m) Hr Hp);
            [ exact Hf | cbn; rewrite Hf; exact HW ]. }
      rewrite (create_page_flood args self w e W Hr Hp HW).
      destruct (flood_backoff W (set_retries (retries self + 1) self)
                  (attempted args self w)) as [[[[]|e'] self2] w2] eqn:Hb.
      * apply (Hretry self w e W self2 w2 Hr Hp HW Hb).
        apply IH.
        destruct (flood_backoff_frame _ _ _ _ _ _ Hb) as (Hr2 & _).
        cbn [retries set_retries] in Hr2. lia.
      * apply (Hraise self w e W e' self2 w2 Hr Hp HW Hb).
Qed.

Lemma lock_state_app (l1 l2 : list event) :
  forall held,
    lock_state held (l1 ++ l2) =
    match lock_state held l1 with
    | Some held1 => lock_state held1 l2
    | None => None
    end.
Proof.
  induction l1 as [|ev l1 IH]; intros held; simpl; [reflexivity|].
  destruct ev; destruct held; simpl; auto.
Qed.

Lemma attempted_pages (args : PageArgs) (self : Telegraph) (w : World) (k : nat) :
  pages (attempted args self w) k = pages w (S k).
Proof. rewrite attempted_eq. reflexivity. Qed.

Lemma attempted_trace (args : PageArgs) (self : Telegraph) (w : World) :
  trace (attempted args self w) =
  trace w ++ [EvSleep (throttle self w);
              EvCreatePage (access_token self) args
                (now w + throttle self w + delays w 0%nat)%Q
                (now (attempted args self w)) (pages w 0%nat)].
Proof. rewrite attempted_eq. reflexivity. Qed.

(** ** How many remote calls one operation makes *)

Lemma quiet_carries (args : PageArgs) (evs : list event) :
  page_calls evs = [] -> Forall (carries args) evs.
Proof.
  induction evs as [|ev evs IH]; intros Q; [constructor|].
  destruct ev; cbn in Q; try discriminate; constructor; auto; exact I.
Qed.

Lemma create_page_calls (args : PageArgs) (self : Telegraph) (w : World) :
  exists evs,
    trace (snd (create_page args self w)) = trace w ++ evs /\
    (List.length (page_calls evs) <= Z.to_nat (3 - retries self))%nat /\
    (forall k, pages (snd (create_page args self w)) k =
               pages w (List.length (page_calls evs) + k)%nat) /\
    Forall (carries args) evs.
Proof.
  pattern self, w, (create_page args self w). apply create_page_runs; clear self w.
    - intros self w Hr. exists []. cbn [snd page_calls filter List.length].
      rewrite app_nil_r. repeat split; auto. lia.
    - intros self w p Hr Hp. eexists. cbn [snd]. split; [apply attempted_trace|].
      cbn [page_calls filter is_page_call List.length].
      split; [lia|]. split; [apply attempted_pages|]. repeat constructor.
    - intros self w e Hr Hp Hf. eexists. cbn [snd]. split; [apply attempted_trace|].
      cbn [page_calls filter is_page_call List.length].
      split; [lia|]. split; [apply attempted_pages|]. repeat constructor.
    - intros self w e Hr Hp Hf HW. eexists. cbn [snd].
      split; [apply attempted_trace|].
      cbn [page_calls filter is_page_call List.length].
      split; [lia|]. split; [apply attempted_pages|]. repeat constructor.
    - intros self w e W e' self2 w2 Hr Hp HW Hb.
      destruct (flood_backoff_frame _ _ _ _ _ _ Hb) as (_ & _ & G1 & _ & evs1 & T1 & Q1).
      eexists. cbn [snd]. split; [rewrite T1, attempted_trace, <- app_assoc; reflexivity|].
      rewrite page_calls_app, Q1.
      cbn [page_calls filter is_page_call List.length app].
      split; [lia|].
      split; [intros k; rewrite G1; apply attempted_pages|].
      constructor; [exact I|]. constructor; [reflexivity|].
      apply quiet_carries. exact Q1.
    - intros self w e W self2 w2 Hr Hp HW Hb (evs & T & B & G & C).
      destruct (flood_backoff_frame _ _ _ _ _ _ Hb) as (R1 & _ & G1 & _ & evs1 & T1 & Q1).
      cbn [retries set_retries] in R1.
      eexists. split; [rewrite T, T1, attempted_trace, <- !app_assoc; reflexivity|].
      rewrite !page_calls_app, Q1.
      cbn [page_calls filter is_page_call List.length app].
      split; [lia|].
      split; [intros k; rewrite G, G1, attempted_pages; f_equal; lia|].
      constructor; [exact I|]. constructor; [reflexivity|].
      apply Forall_app. split; [apply quiet_carries; exact Q1|exact C].
Qed.

(** X1.  One [create_page] makes at most as many remote createPage calls
    as the counter leaves room for below the cap, so never more than three
    from a counter that is not negative and none from a counter at the cap;
    it reads exactly one answer of the service per call made, and every call
    carries the arguments the operation was given. *)
Theorem create_page_attempt_bound (args : PageArgs) (self : Telegraph) (w : World) :
  exists evs,
    trace (snd (create_page args self w)) = trace w ++ evs /\
    (List.length (page_calls evs) <= Z.to_nat (3 - retries self))%nat /\
    (0 <= retries self -> (List.length (page_calls evs) <= 3)%nat) /\
    (forall k, pages (snd (create_page args self w)) k =
               pages w (List.length (page_calls evs) + k)%nat) /\
    Forall (carries args) evs.
Proof.
  destruct (create_page_calls args self w) as (evs & T & B & G & C).
  exists evs. repeat split; auto. intros H0. lia.
Qed.

Lemma quiet_unanswered (evs : list event) :
  page_calls evs = [] -> Forall unanswered evs.
Proof.
  induction evs as [|ev evs IH]; intros Q; [constructor|].
  destruct ev; cbn in Q; try discriminate; constructor; auto; exact I.
Qed.

(** What lines 53-61 add to the trace, whichever way they end. *)
Lemma flood_backoff_summary (W : Z) (self : Telegraph) (w : World) :
  forall r self2 w2,
    flood_backoff W self w = (r, self2, w2) ->
    exists evs,
      trace w2 = trace w ++ evs /\
      page_calls evs = [] /\
      lock_state false evs = Some false /\
      (access_token self2 = access_token self \/
       In (EvCreateAccount (Return (access_token self2))) evs) /\
      (delays_ok w -> (now w <= now w2)%Q).
Proof.
  intros r self2 w2 Hb.
  destruct (flood_backoff_cases W self w r self2 w2 Hb)
    as [(_ & _ & -> & T & N)
       |[(_ & _ & tok & _ & _ & -> & T & N)
        |[(_ & _ & e & _ & _ & -> & T & N)
         |[(_ & _ & H0 & _ & -> & T & N)
          |(_ & _ & _ & _ & -> & T & N)]]]].
  - exists []. rewrite app_nil_r. repeat split; auto. intros _. rewrite N. lra.
  - eexists. split; [exact T|]. repeat split; auto.
    + right. cbn. auto.
    + intros Hd. rewrite N. pose proof (Hd 0%nat). lra.
  - eexists. split; [exact T|]. repeat split; auto.
    intros Hd. rewrite N. pose proof (Hd 0%nat). lra.
  - eexists. split; [exact T|]. repeat split; auto.
    intros Hd. rewrite N. pose proof (Hd 0%nat).
    pose proof (inject_Z_nonneg (W + 1) H0). lra.
  - eexists. split; [exact T|]. repeat split; auto. intros _. rewrite N. lra.
Qed.

(** ** What a returned page means *)

(** X2.  Whenever [create_page] returns a page, on the first attempt or
    after rejections, the counter is 0, [last_run] is the time at which the
    operation ended, and the operation's last effect is the remote call that
    was answered with this page, made with the credential the account now
    has; no earlier remote call of the operation was answered with a page. *)
Theorem create_page_returns (args : PageArgs) (self : Telegraph) (w : World)
        (p : Page) (self' : Telegraph) (w' : World) :
  create_page args self w = (Return p, self', w') ->
  retries self' = 0 /\
  last_run self' = now w' /\
  exists pre start,
    trace w' = trace w ++ pre ++
               [EvCreatePage (access_token self') args start (now w') (Return p)] /\
    Forall unanswered pre.
Proof.
  revert p self' w'. pattern self, w, (create_page args self w).
  apply create_page_runs; clear self w.
  - intros self w Hr p self' w' E. discriminate.
  - intros self w p0 Hr Hp p self' w' E. inversion E; subst.
    cbn [retries last_run access_token set_retries set_last_run].
    split; [reflexivity|]. split; [reflexivity|].
    exists [EvSleep (throttle self w)]. eexists.
    rewrite attempted_trace at 1. rewrite Hp.
    split; [reflexivity|]. repeat constructor.
  - intros self w e Hr Hp Hf p self' w' E. discriminate.
  - intros self w e Hr Hp Hf HW p self' w' E. discriminate.
  - intros self w e W e' self2 w2 Hr Hp HW Hb p self' w' E. discriminate.
  - intros self w e W self2 w2 Hr Hp HW Hb IH p self' w' E.
    destruct (IH p self' w' E) as (R & L & pre & start & T & U).
    split; [exact R|]. split; [exact L|].
    destruct (flood_backoff_summary _ _ _ _ _ _ Hb) as (evs1 & T1 & Q1 & _).
    exists ([EvSleep (throttle self w);
             EvCreatePage (access_token self) args
               (now w + throttle self w + delays w 0%nat)%Q
               (now (attempted args self w)) (pages w 0%nat)] ++ evs1 ++ pre), start.
    split; [rewrite T, T1, attempted_trace, <- !app_assoc; reflexivity|].
    rewrite Hp. apply Forall_app. split; [repeat constructor|].
    apply Forall_app. split; [apply quiet_unanswered; exact Q1|exact U].
Qed.

Lemma create_page_returns_witness :
  retries (snd (fst (create_page Sample.args (Sample.account 1)
                       (Sample.world (Sample.script [Sample.flood "70"]))))) = 0.
Proof.
  destruct (create_page Sample.args (Sample.account 1)
              (Sample.world (Sample.script [Sample.flood "70"])))
    as [[r self'] w'] eqn:E.
  assert (r = Return Sample.page) as ->.
  { apply (f_equal (fun x => fst (fst x))) in E. cbn [fst] in E.
    rewrite <- E. vm_compute. reflexivity. }
  exact (proj1 (create_page_returns _ _ _ _ _ _ E)).
Defined.

(** ** The counter stays in range *)

Lemma counter_in_range (args : PageArgs) (self : Telegraph) (w : World) :
  0 <= retries self ->
  0 <= retries (snd (fst (create_page args self w))) <= 3.
Proof.
  pattern self, w, (create_page args self w).
  apply create_page_runs; clear self w; cbn [fst snd retries set_retries].
  - intros; lia.
  - intros; lia.
  - intros; lia.
  - intros; lia.
  - intros self w e W e' self2 w2 Hr Hp HW Hb H0.
    destruct (flood_backoff_frame _ _ _ _ _ _ Hb) as (R1 & _).
    cbn [retries set_retries] in R1. lia.
  - intros self w e W self2 w2 Hr Hp HW Hb IH H0.
    destruct (flood_backoff_frame _ _ _ _ _ _ Hb) as (R1 & _).
    cbn [retries set_retries] in R1. apply IH. lia.
Qed.

(** X3.  From a counter that is not negative, [create_page] leaves the
    counter between 0 and 3, however the operation ends. *)
Theorem create_page_counter_range (args : PageArgs) (self : Telegraph) (w : World) :
  0 <= retries self ->
  0 <= retries (snd (fst (create_page args self w))) <= 3.
Proof. apply counter_in_range. Qed.

Lemma create_page_counter_range_witness :
  0 <= retries (snd (fst (create_page Sample.args (Sample.account 2)
                            (Sample.refusing
                               (Sample.world (Sample.script [Sample.flood "70"])))))) <= 3.
Proof.
  apply create_page_counter_range. simpl. lia.
Defined.

(** ** Where a credential can come from *)

(** X4.  After [create_page] the account holds the credential it had or
    one that a provisioning call of this operation handed out; an operation
    without a successful provisioning leaves the credential alone. *)
Theorem create_page_credential (args : PageArgs) (self : Telegraph) (w : World) :
  exists evs,
    trace (snd (create_page args self w)) = trace w ++ evs /\
    (access_token (snd (fst (create_page args self w))) = access_token self \/
     In (EvCreateAccount (Return (access_token (snd (fst (create_page args self w))))))
        evs) /\
    ((forall tok, ~ In (EvCreateAccount (Return tok)) evs) ->
     access_token (snd (fst (create_page args self w))) = access_token self).
Proof.
  assert (exists evs,
             trace (snd (create_page args self w)) = trace w ++ evs /\
             (access_token (snd (fst (create_page args self w))) = access_token self \/
              In (EvCreateAccount
                    (Return (access_token (snd (fst (create_page args self w))))))
                 evs)) as (evs & T & [H|H]).
  { pattern self, w, (create_page args self w). apply create_page_runs; clear self w.
    - intros self w Hr. exists []. cbn. rewrite app_nil_r. auto.
    - intros self w p Hr Hp. eexists. cbn [fst snd].
      split; [apply attempted_trace|]. left. reflexivity.
    - intros self w e Hr Hp Hf. eexists. cbn [fst snd].
      split; [apply attempted_trace|]. left. reflexivity.
    - intros self w e Hr Hp Hf HW. eexists. cbn [fst snd].
      split; [apply attempted_trace|]. left. reflexivity.
    - intros self w e W e' self2 w2 Hr Hp HW Hb.
      destruct (flood_backoff_summary _ _ _ _ _ _ Hb) as (evs1 & T1 & _ & _ & K & _).
      exists ([EvSleep (throttle self w);
               EvCreatePage (access_token self) args
                 (now w + throttle self w + delays w 0%nat)%Q
                 (now (attempted args self w)) (pages w 0%nat)] ++ evs1).
      cbn [fst snd].
      split; [rewrite T1, attempted_trace, <- app_assoc; reflexivity|].
      destruct K as [K|K]; [left; exact K|right; apply in_or_app; right; exact K].
    - intros self w e W self2 w2 Hr Hp HW Hb (evs & T & K2).
      destruct (flood_backoff_summary _ _ _ _ _ _ Hb) as (evs1 & T1 & _ & _ & K & _).
      exists ([EvSleep (throttle self w);
               EvCreatePage (access_token self) args
                 (now w + throttle self w + delays w 0%nat)%Q
                 (now (attempted args self w)) (pages w 0%nat)] ++ evs1 ++ evs).
      split; [rewrite T, T1, attempted_trace, <- !app_assoc; reflexivity|].
      destruct K2 as [K2|K2].
      + rewrite K2. destruct K as [K|K]; [left; exact K|].
        right. apply in_or_app. right. apply in_or_app. left. exact K.
      + right. apply in_or_app. right. apply in_or_app. right. exact K2. }
  - exists evs. auto.
  - exists evs. split; [exact T|]. split; [right; exact H|].
    intros Hno. exfalso. exact (Hno _ H).
Qed.

(** ** The write lock *)

(** X5.  However [create_page] ends, also when provisioning or the sleep
    under the lock raises, the write lock it took is given back: over the
    events of the operation the lock is taken only while free, given back
    only while held, never held across a remote createPage, and free at the
    end. *)
Theorem create_page_releases_lock (args : PageArgs) (self : Telegraph) (w : World) :
  exists evs,
    trace (snd (create_page args self w)) = trace w ++ evs /\
    lock_state false evs = Some false.
Proof.
  pattern self, w, (create_page args self w). apply create_page_runs; clear self w.
  - intros self w Hr. exists []. cbn. rewrite app_nil_r. auto.
  - intros self w p Hr Hp. eexists. cbn [snd].
    split; [apply attempted_trace|]. reflexivity.
  - intros self w e Hr Hp Hf. eexists. cbn [snd].
    split; [apply attempted_trace|]. reflexivity.
  - intros self w e Hr Hp Hf HW. eexists. cbn [snd].
    split; [apply attempted_trace|]. reflexivity.
  - intros self w e W e' self2 w2 Hr Hp HW Hb.
    destruct (flood_backoff_summary _ _ _ _ _ _ Hb) as (evs1 & T1 & _ & L1 & _).
    exists ([EvSleep (throttle self w);
             EvCreatePage (access_token self) args
               (now w + throttle self w + delays w 0%nat)%Q
               (now (attempted args self w)) (pages w 0%nat)] ++ evs1).
    cbn [snd].
    split; [rewrite T1, attempted_trace, <- app_assoc; reflexivity|].
    rewrite lock_state_app. exact L1.
  - intros self w e W self2 w2 Hr Hp HW Hb (evs & T & L).
    destruct (flood_backoff_summary _ _ _ _ _ _ Hb) as (evs1 & T1 & _ & L1 & _).
    exists ([EvSleep (throttle self w);
             EvCreatePage (access_token self) args
               (now w + throttle self w + delays w 0%nat)%Q
               (now (attempted args self w)) (pages w 0%nat)] ++ evs1 ++ evs).
    split; [rewrite T, T1, attempted_trace, <- !app_assoc; reflexivity|].
    rewrite lock_state_app.
    change (lock_state false (evs1 ++ evs) = Some false).
    rewrite lock_state_app, L1. exact L.
Qed.

(** ** The clock and [last_run] *)

Lemma attempted_now (args : PageArgs) (self : Telegraph) (w : World) :
  delays_ok w -> (now w <= now (attempted args self w))%Q.
Proof.
  intros Hd. rewrite attempted_eq. cbn [now].
  pose proof (throttle_nonneg self w). pose proof (Hd 0%nat). pose proof (Hd 1%nat).
  lra.
Qed.

(** X6.  In a world where no blocking step is cut short, for an account
    whose [last_run] is not in the future: [create_page] never moves the
    clock or [last_run] back and never leaves [last_run] in the future. *)
Theorem create_page_clock (args : PageArgs) (self : Telegraph) (w : World) :
  delays_ok w -> (last_run self <= now w)%Q ->
  (now w <= now (snd (create_page args self w)))%Q /\
  (last_run self <= last_run (snd (fst (create_page args self w))))%Q /\
  (last_run (snd (fst (create_page args self w))) <=
   now (snd (create_page args self w)))%Q /\
  delays_ok (snd (create_page args self w)).
Proof.
  pattern self, w, (create_page args self w). apply create_page_runs; clear self w;
    cbn [fst snd last_run set_retries set_last_run].
  - intros self w Hr Hd Hl. repeat split; auto; lra.
  - intros self w p Hr Hp Hd Hl. pose proof (attempted_now args self w Hd).
    repeat split; try lra. apply attempted_delays; exact Hd.
  - intros self w e Hr Hp Hf Hd Hl. pose proof (attempted_now args self w Hd).
    repeat split; try lra. apply attempted_delays; exact Hd.
  - intros self w e Hr Hp Hf HW Hd Hl. pose proof (attempted_now args self w Hd).
    repeat split; try lra. apply attempted_delays; exact Hd.
  - intros self w e W e' self2 w2 Hr Hp HW Hb Hd Hl.
    pose proof (attempted_now args self w Hd) as N0.
    pose proof (attempted_delays args self w Hd) as D0.
    destruct (flood_backoff_frame _ _ _ _ _ _ Hb) as (_ & L1 & _ & D1 & _).
    destruct (flood_backoff_summary _ _ _ _ _ _ Hb) as (_ & _ & _ & _ & _ & N1).
    cbn [last_run set_retries] in L1. specialize (N1 D0). rewrite L1.
    repeat split; auto; lra.
  - intros self w e W self2 w2 Hr Hp HW Hb IH Hd Hl.
    pose proof (attempted_now args self w Hd) as N0.
    pose proof (attempted_delays args self w Hd) as D0.
    destruct (flood_backoff_frame _ _ _ _ _ _ Hb) as (_ & L1 & _ & D1 & _).
    destruct (flood_backoff_summary _ _ _ _ _ _ Hb) as (_ & _ & _ & _ & _ & N1).
    cbn [last_run set_retries] in L1. specialize (N1 D0).
    destruct (IH (D1 D0)) as (A & B & C & D); [rewrite L1; lra|].
    rewrite L1 in B. repeat split; auto; lra.
Qed.

Lemma create_page_clock_witness :
  (100 <= now (snd (create_page Sample.args (Sample.account 0)
                      (Sample.world (Sample.script [Sample.flood "5"])))))%Q.
Proof.
  refine (proj1 (create_page_clock Sample.args (Sample.account 0)
                   (Sample.world (Sample.script [Sample.flood "5"])) _ _)).
  - intros k. simpl. unfold Qle. simpl. lia.
  - simpl. unfold Qle. simpl. lia.
Defined.

(** ** Rejections that do not lead to a retry *)


(** X7.  When a rejection carries a wait of 60 or more, no other caller
    holds the write lock and the provisioning call fails, [create_page]
    raises the provisioning error: the counter keeps its increment, the
    credential stays, the write lock is given back and no retry follows.
    If the increment reached the cap, the next [create_page] on the account
    raises [OverflowError] without any remote call and resets the counter. *)
Theorem rotation_failure_propagates (args : PageArgs) (self : Telegraph) (w : World)
        (e e' : exn) (W : Z) :
  retries self < 3 ->
  pages w 0%nat = Raise e -> flood_wait e = Some W -> 60 <= W ->
  writer w 0%nat = false -> accounts w 0%nat = Raise e' ->
  let start := (now w + throttle self w + delays w 0%nat)%Q in
  let stop := (start + 0 + delays w 1%nat)%Q in
  let w' :=
    mkWorld (stop + 0 + delays w 2%nat)%Q
            (trace w ++
             [EvSleep (throttle self w);
              EvCreatePage (access_token self) args start stop (Raise e);
              EvWriteLock; EvCreateAccount (Raise e'); EvWriteUnlock])
            (shift (pages w)) (shift (accounts w)) (infos w) (shift (writer w))
            (shift (shift (shift (delays w)))) (draws w) in
  create_page args self w = (Raise e', set_retries (retries self + 1) self, w') /\
  (retries self = 2 ->
   forall args2,
     create_page args2 (set_retries (retries self + 1) self) w' =
     (Raise OverflowError, set_retries 0 self, w')).
Proof.
  intros Hr He HW H60 Hw Ha. cbv zeta. split.
  - rewrite (create_page_flood args self w e W Hr He HW).
    rewrite attempted_eq. cbv zeta. rewrite He.
    rewrite flood_backoff_refused with (e := e');
      [ | exact Hw | exact H60 | exact Ha ].
    cbn [now trace pages accounts infos writer delays draws].
    rewrite <- app_assoc. reflexivity.
  - intros H2 args2.
    rewrite create_page_capped by (unfold set_retries; simpl; lia).
    reflexivity.
Qed.

Lemma rotation_failure_propagates_witness :
  fst (create_page Sample.args (Sample.account 2)
         (Sample.refusing (Sample.world (Sample.script [Sample.flood "70"])))) =
  (Raise (TelegraphException "SHORT_NAME_REQUIRED"), set_retries 3 (Sample.account 2)).
Proof.
  rewrite (proj1 (rotation_failure_propagates Sample.args (Sample.account 2)
                    (Sample.refusing (Sample.world (Sample.script [Sample.flood "70"])))
                    (TelegraphException "FLOOD_WAIT_70")
                    (TelegraphException "SHORT_NAME_REQUIRED") 70
                    ltac:(simpl; lia) eq_refl eq_refl ltac:(lia) eq_refl eq_refl)).
  reflexivity.
Defined.

(** X8.  When another caller holds the write lock at the check of line 53,
    a rejection is followed by the retry at once, whatever its wait: the
    counter is incremented, and neither the lock nor a sleep nor a
    provisioning comes between the rejected call and the retry. *)
Theorem blocked_flood_retries_at_once (args : PageArgs) (self : Telegraph) (w : World)
        (e : exn) (W : Z) :
  retries self < 3 ->
  pages w 0%nat = Raise e -> flood_wait e = Some W ->
  writer w 0%nat = true ->
  let start := (now w + throttle self w + delays w 0%nat)%Q in
  let stop := (start + 0 + delays w 1%nat)%Q in
  create_page args self w =
  create_page args (set_retries (retries self + 1) self)
    (mkWorld stop
             (trace w ++
              [EvSleep (throttle self w);
               EvCreatePage (access_token self) args start stop (Raise e)])
             (shift (pages w)) (accounts w) (infos w) (shift (writer w))
             (shift (shift (delays w))) (draws w)).
Proof.
  intros Hr He HW Hw. cbv zeta.
  rewrite (create_page_flood args self w e W Hr He HW).
  rewrite attempted_eq. cbv zeta. rewrite He.
  rewrite flood_backoff_blocked; [ | exact Hw ].
  reflexivity.
Qed.

(** X9.  A rejection whose message starts like a flood-control error but
    does not end in a number makes [create_page] raise the [ValueError] of
    line 50 after this one remote call: the counter is not incremented and
    the account record is returned as it was. *)
Theorem unreadable_wait_raises (args : PageArgs) (self : Telegraph) (w : World)
        (e : exn) :
  retries self < 3 ->
  pages w 0%nat = Raise e -> is_flood e = true -> flood_wait e = None ->
  let start := (now w + throttle self w + delays w 0%nat)%Q in
  let stop := (start + 0 + delays w 1%nat)%Q in
  create_page args self w =
  (Raise (ValueError "invalid literal for int()"), self,
   mkWorld stop
           (trace w ++
            [EvSleep (throttle self w);
             EvCreatePage (access_token self) args start stop (Raise e)])
           (shift (pages w)) (accounts w) (infos w) (writer w)
           (shift (shift (delays w))) (draws w)).
Proof.
  intros Hr He Hf HW. cbv zeta.
  destruct e as [m| | |]; try discriminate. cbn in Hf, HW. rewrite Hf in HW.
  rewrite (create_page_flood_unreadable args self w m Hr He Hf HW).
  rewrite attempted_eq. cbv zeta. rewrite He. reflexivity.
Qed.


(** ** The tag filter of [TelegraphIfy] *)

(** Induction on documents, with the hypothesis for every child. *)
Lemma node_forall_ind (P : node -> Prop) :
  (forall s, P (Text s)) ->
  (forall i name attrs children, Forall P children -> P (Tag i name attrs children)) ->
  forall n, P n.
Proof.
  intros Htext Htag.
  fix IH 1. intros [s|i name attrs children].
  - apply Htext.
  - apply Htag. induction children as [|c cs IHcs]; constructor; [apply IH|exact IHcs].
Qed.

Lemma filter_all {A : Type} (f : A -> bool) (l : list A) :
  (forall x, In x l -> f x = true) -> filter f l = l.
Proof.
  induction l as [|a l IH]; intros H; simpl; [reflexivity|].
  rewrite (H a (or_introl eq_refl)). f_equal. apply IH. intros x Hx. apply H. right. exact Hx.
Qed.

Lemma filter_filter {A : Type} (f g : A -> bool) (l : list A) :
  filter f (filter g l) = filter (fun x => g x && f x) l.
Proof.
  induction l as [|a l IH]; simpl; [reflexivity|].
  destruct (g a); simpl; [|exact IH].
  destruct (f a); simpl; [rewrite IH; reflexivity | exact IH].
Qed.

Lemma NoDup_app_l {A : Type} (l1 l2 : list A) : NoDup (l1 ++ l2) -> NoDup l1.
Proof.
  induction l1 as [|a l1 IH]; intros H; [constructor|].
  inversion H as [|? ? Hn Hd]; subst. constructor.
  - intros Hin. apply Hn. apply in_or_app. left. exact Hin.
  - apply IH. exact Hd.
Qed.

Lemma NoDup_app_r {A : Type} (l1 l2 : list A) : NoDup (l1 ++ l2) -> NoDup l2.
Proof.
  induction l1 as [|a l1 IH]; intros H; [exact H|].
  inversion H; subst. apply IH. assumption.
Qed.

Lemma NoDup_app_apart {A : Type} (l1 l2 : list A) (x : A) :
  NoDup (l1 ++ l2) -> In x l1 -> In x l2 -> False.
Proof.
  induction l1 as [|a l1 IH]; intros H H1 H2; [contradiction|].
  inversion H as [|? ? Hn Hd]; subst. destruct H1 as [->|H1].
  - apply Hn. apply in_or_app. right. exact H2.
  - exact (IH Hd H1 H2).
Qed.

(** Unwrapping the tag object [i] takes exactly the tags with identity [i]
    out of the document, and leaves the order of the others. *)
Lemma unwrap_tags (i : nat) :
  forall n,
    NoDup (map fst (find_all n)) ->
    flat_map find_all (unwrap i n) =
    filter (fun t => negb (Nat.eqb i (fst t))) (find_all n).
Proof.
  induction n as [s|j name attrs children IH] using node_forall_ind; intros Hd.
  - reflexivity.
  - simpl in Hd. inversion Hd as [|? ? Hj Hd']; subst.
    simpl. destruct (Nat.eqb i j) eqn:E; simpl.
    + apply Nat.eqb_eq in E. subst j. symmetry. apply filter_all.
      intros [k nm] Hin. simpl.
      destruct (Nat.eqb i k) eqn:E2; [|reflexivity].
      apply Nat.eqb_eq in E2. subst k. exfalso. apply Hj.
      apply (in_map fst) in Hin. exact Hin.
    + rewrite app_nil_r. f_equal.
      clear Hj Hd. induction children as [|c cs IHcs]; [reflexivity|].
      inversion IH as [|? ? Hc Hcs]; subst. simpl in Hd'. rewrite map_app in Hd'.
      simpl. rewrite flat_map_app, filter_app.
      rewrite (Hc (NoDup_app_l _ _ Hd')), (IHcs Hcs (NoDup_app_r _ _ Hd')).
      reflexivity.
Qed.

Lemma unwrap_forest_tags (i : nat) (doc : list node) :
  NoDup (map fst (flat_map find_all doc)) ->
  flat_map find_all (flat_map (unwrap i) doc) =
  filter (fun t => negb (Nat.eqb i (fst t))) (flat_map find_all doc).
Proof.
  induction doc as [|n doc IH]; intros Hd; [reflexivity|].
  simpl in *. rewrite map_app in Hd. rewrite flat_map_app, filter_app.
  rewrite (unwrap_tags i n (NoDup_app_l _ _ Hd)), (IH (NoDup_app_r _ _ Hd)).
  reflexivity.
Qed.

Lemma unwrap_texts (i : nat) :
  forall n, flat_map texts (unwrap i n) = texts n.
Proof.
  induction n as [s|j name attrs children IH] using node_forall_ind.
  - reflexivity.
  - simpl. destruct (Nat.eqb i j); simpl; [reflexivity|].
    rewrite app_nil_r.
    induction children as [|c cs IHcs]; [reflexivity|].
    inversion IH as [|? ? Hc Hcs]; subst.
    simpl. rewrite flat_map_app, Hc, (IHcs Hcs). reflexivity.
Qed.

Lemma unwrap_forest_texts (i : nat) (doc : list node) :
  flat_map texts (flat_map (unwrap i) doc) = flat_map texts doc.
Proof.
  induction doc as [|n doc IH]; [reflexivity|].
  simpl. rewrite flat_map_app, unwrap_texts, IH. reflexivity.
Qed.

Lemma NoDup_map_filter {A B : Type} (g : A -> B) (f : A -> bool) (l : list A) :
  NoDup (map g l) -> NoDup (map g (filter f l)).
Proof.
  induction l as [|a l IH]; intros H; simpl; [constructor|].
  inversion H as [|? ? Hn Hd]; subst.
  destruct (f a); simpl; [|apply IH; exact Hd].
  constructor; [|apply IH; exact Hd].
  intros Hin. apply Hn. apply in_map_iff in Hin. destruct Hin as (x & Hx & Hin).
  apply filter_In in Hin. rewrite <- Hx. apply in_map. tauto.
Qed.

(** The loop over a work list: what is left of the tags, and of the text. *)
Lemma strip_fold (todo : list (nat * string)) :
  forall doc,
    NoDup (map fst (flat_map find_all doc)) ->
    let doc' := fold_left (fun d tag =>
                             if negb (allowed (snd tag))
                             then flat_map (unwrap (fst tag)) d else d)
                          todo doc in
    flat_map find_all doc' =
      filter (fun t => negb (doomed todo t)) (flat_map find_all doc) /\
    flat_map texts doc' = flat_map texts doc.
Proof.
  induction todo as [|u todo IH]; intros doc Hd; cbv zeta; simpl.
  - split; [|reflexivity]. symmetry. apply filter_all. reflexivity.
  - destruct (allowed (snd u)) eqn:Ha; simpl.
    + destruct (IH doc Hd) as [T X]. split; [|exact X].
      rewrite T. apply filter_ext. intros t. rewrite andb_false_r. reflexivity.
    + assert (NoDup (map fst (flat_map find_all (flat_map (unwrap (fst u)) doc))))
        as Hd1.
      { rewrite unwrap_forest_tags by exact Hd. apply NoDup_map_filter. exact Hd. }
      destruct (IH _ Hd1) as [T X]. split.
      * rewrite T, unwrap_forest_tags by exact Hd. rewrite filter_filter.
        apply filter_ext. intros t. rewrite andb_true_r, negb_orb. reflexivity.
      * rewrite X. apply unwrap_forest_texts.
Qed.

Lemma doomed_self (l : list (nat * string)) (t : nat * string) :
  NoDup (map fst l) -> In t l -> doomed l t = negb (allowed (snd t)).
Proof.
  intros Hd Hin. unfold doomed.
  destruct (allowed (snd t)) eqn:Ha; simpl.
  - destruct (existsb _ l) eqn:E; [|reflexivity].
    apply existsb_exists in E. destruct E as (u & Hu & E).
    apply andb_prop in E. destruct E as [E1 E2]. apply Nat.eqb_eq in E1.
    assert (u = t) as ->.
    { clear E2 Ha. induction l as [|a l IH]; [contradiction|].
      simpl in Hd. inversion Hd as [|? ? Hn Hd']; subst.
      destruct Hu as [->|Hu], Hin as [->|Hin]; auto.
      - exfalso. apply Hn. rewrite E1. apply in_map. exact Hin.
      - exfalso. apply Hn. rewrite <- E1. apply in_map. exact Hu. }
    rewrite Ha in E2. discriminate.
  - apply existsb_exists. exists t. split; [exact Hin|].
    rewrite Nat.eqb_refl, Ha. reflexivity.
Qed.

Lemma strip_nothing (todo : list (nat * string)) (doc : list node) :
  Forall (fun t => allowed (snd t) = true) todo ->
  fold_left (fun d tag =>
               if negb (allowed (snd tag)) then flat_map (unwrap (fst tag)) d else d)
            todo doc = doc.
Proof.
  induction todo as [|u todo IH]; intros Hall; [reflexivity|].
  inversion Hall as [|? ? Hu Hl]; subst. simpl. rewrite Hu. simpl. apply IH. exact Hl.
Qed.

Lemma strip_tags_filter (soup : list node) :
  NoDup (map fst (flat_map find_all soup)) ->
  flat_map find_all (strip_tags soup) =
    filter (fun t => allowed (snd t)) (flat_map find_all soup) /\
  Forall (fun t => allowed (snd t) = true) (flat_map find_all (strip_tags soup)) /\
  flat_map texts (strip_tags soup) = flat_map texts soup.
Proof.
  intros Hd.
  destruct (strip_fold (flat_map find_all soup) soup Hd) as [T X].
  assert (flat_map find_all (strip_tags soup) =
          filter (fun t => allowed (snd t)) (flat_map find_all soup)) as T'.
  { unfold strip_tags. rewrite T. apply filter_ext_in. intros t Hin.
    rewrite (doomed_self _ t Hd Hin). apply negb_involutive. }
  split; [exact T'|]. split; [|exact X].
  rewrite T'. apply Forall_forall. intros t Hin. apply filter_In in Hin. tauto.
Qed.

(** X11.  On a parsed document whose tag objects are distinct, the loop of
    lines 144-146 leaves exactly the tags with an allowed name, in their
    document order, and every text node, in order; a document with allowed
    tags only is left as it is. *)
Theorem strip_tags_keeps_allowed (soup : list node) :
  NoDup (map fst (flat_map find_all soup)) ->
  flat_map find_all (strip_tags soup) =
    filter (fun t => allowed (snd t)) (flat_map find_all soup) /\
  Forall (fun t => allowed (snd t) = true) (flat_map find_all (strip_tags soup)) /\
  flat_map texts (strip_tags soup) = flat_map texts soup /\
  (Forall (fun t => allowed (snd t) = true) (flat_map find_all soup) ->
   strip_tags soup = soup).
Proof.
  intros Hd. destruct (strip_tags_filter soup Hd) as (T & A & X).
  repeat split; auto.
  intros Hall. unfold strip_tags. apply strip_nothing. exact Hall.
Qed.

Lemma strip_tags_keeps_allowed_witness :
  flat_map find_all (strip_tags Scene.document) = [(2%nat, "p")] /\
  flat_map texts (strip_tags Scene.document) = ["hi"; "x"; "y"].
Proof.
  destruct (strip_tags_keeps_allowed Scene.document) as (T & _ & X & _).
  - repeat constructor; simpl; intuition discriminate.
  - rewrite T, X. split; reflexivity.
Defined.

(** ** What [TelegraphIfy.__init__] stores *)

Lemma prefix_append (a y : string) : String.prefix a (String.append a y) = true.
Proof.
  induction a as [|c a IH]; simpl.
  - destruct y; reflexivity.
  - destruct (Ascii.ascii_dec c c) as [_|N]; [exact IH|contradiction].
Qed.

Lemma contains_prefix (a s : string) :
  String.prefix a s = true -> contains a s = true.
Proof. intros H. destruct s; cbn [contains]; rewrite H; reflexivity. Qed.

(** X12.  A [TelegraphIfy] can only be made while the module has a pool;
    otherwise the constructor raises the not-configured error whatever its
    arguments.  When it is made, its content is empty unless a link is
    given, whatever the document; with a link it is the rendering of the
    filtered document, in which only allowed tags and all the text of the
    parsed document remain, followed by the fixed note and the source link.
    The title is the given one, or the fixed one when none is given. *)
Theorem TelegraphIfy_content
        (parse : option string -> outcome (list node)) (render : list node -> string)
        (api : option API) (xml title link feed_title author : option string) :
  (api = None ->
   TelegraphIfy_init parse render api xml title link feed_title author =
   Raise NotConfigured) /\
  forall t,
    TelegraphIfy_init parse render api xml title link feed_title author = Return t ->
    api <> None /\
    (truthy link = false -> telegraph_html_content t = EmptyString) /\
    (truthy link = true ->
     exists soup,
       parse xml = Return soup /\
       (NoDup (map fst (flat_map find_all soup)) ->
        Forall (fun tag => allowed (snd tag) = true)
               (flat_map find_all (strip_tags soup)) /\
        flat_map texts (strip_tags soup) = flat_map texts soup) /\
       telegraph_html_content t =
         String.append (render (strip_tags soup))
           (String.append footer
              (String.append "<br><br><a href='"
                 (String.append (text_of link) "'>Source</a>")))) /\
    telegraph_title t = (if truthy title then text_of title else "Generated by RSStT").
Proof.
  split; [intros ->; reflexivity|].
  intros t. unfold TelegraphIfy_init.
  destruct api as [pool|]; [|discriminate].
  destruct (parse xml) as [soup|e] eqn:Hp; [|discriminate].
  destruct (truthy feed_title); intros E; inversion E; subst; clear E;
    cbn [telegraph_html_content telegraph_title];
    (split; [discriminate|]);
    (split; [intros ->; reflexivity|]);
    (split; [|reflexivity]);
    intros ->; exists soup; (split; [reflexivity|]); (split; [|reflexivity]);
    intros Hd; destruct (strip_tags_filter soup Hd) as (_ & A & X); auto.
Qed.

Lemma contains_later (a s : string) (c : ascii) :
  contains a s = true -> contains a (String c s) = true.
Proof. intros H. cbn [contains]. rewrite H. apply orb_true_r. Qed.

Lemma contains_skip (x a s : string) :
  contains a s = true -> contains a (String.append x s) = true.
Proof.
  intros H. induction x as [|c x IH]; [exact H|].
  change (String.append (String c x) s) with (String c (String.append x s)).
  apply contains_later. exact IH.
Qed.

Lemma prefix_refl (a : string) : String.prefix a a = true.
Proof.
  induction a as [|c a IH]; simpl; [reflexivity|].
  destruct (Ascii.ascii_dec c c) as [_|N]; [exact IH|contradiction].
Qed.

(** X13.  The author line that [TelegraphIfy.__init__] stores: without a
    feed title it is the fixed one with the project's address, whatever
    link and author are given; with a feed title it starts with the feed
    title, names the author whenever one is given, repeats nothing when
    the feed title already contains the author, and its address is the link
    or empty. *)
Theorem TelegraphIfy_author
        (parse : option string -> outcome (list node)) (render : list node -> string)
        (api : option API) (xml title link feed_title author : option string)
        (t : TelegraphIfy) :
  TelegraphIfy_init parse render api xml title link feed_title author = Return t ->
  (truthy feed_title = false ->
   telegraph_author t = "Generated by RSStT" /\
   telegraph_author_url t = "https://github.com/Rongronggg9/RSS-to-Telegram-Bot") /\
  (truthy feed_title = true ->
   String.prefix (text_of feed_title) (telegraph_author t) = true /\
   telegraph_author_url t = (if truthy link then text_of link else EmptyString) /\
   (truthy author = true ->
    contains (text_of author) (telegraph_author t) = true) /\
   (truthy author = false \/
    contains (text_of author) (text_of feed_title) = true ->
    telegraph_author t = text_of feed_title)).
Proof.
  unfold TelegraphIfy_init.
  destruct api as [pool|]; [|discriminate].
  destruct (parse xml) as [soup|e]; [|discriminate].
  destruct (truthy feed_title) eqn:Hf; intros E; inversion E; subst; clear E;
    cbn [telegraph_author telegraph_author_url].
  - split; [discriminate|]. intros _.
    destruct (truthy author) eqn:Ha; cbn [andb].
    + destruct (contains (text_of author) (text_of feed_title)) eqn:Hc; cbn [negb].
      * repeat split; auto. apply prefix_refl.
      * split; [apply prefix_append|]. split; [reflexivity|].
        split; [intros _; apply contains_skip; do 2 apply contains_later;
                apply contains_prefix; apply prefix_append|].
        intros [H|H]; discriminate.
    + repeat split; auto; [apply prefix_refl | discriminate].
  - split; [auto|discriminate].
Qed.

Lemma TelegraphIfy_author_witness :
  exists t,
    TelegraphIfy_init Scene.parse Scene.render (Some Scene.pool) (Some "<p>hi</p>")
      (Some "A title") None (Some "Some feed") (Some "Jo") = Return t /\
    telegraph_author t = "Some feed (Jo)" /\
    contains "Jo" (telegraph_author t) = true.
Proof.
  eexists. split; [reflexivity|]. split; [reflexivity|].
  refine (proj1 (proj2 (proj2 (proj2
           (TelegraphIfy_author Scene.parse Scene.render (Some Scene.pool)
              (Some "<p>hi</p>") (Some "A title") None (Some "Some feed") (Some "Jo")
              _ eq_refl) eq_refl))) eq_refl).
Defined.

(** ** The defaults of [Session.request] *)

Lemma get_app_one (k k' : string) (v : pyval) (d : kwargs) :
  get k (d ++ [(k', v)]) =
  match get k d with
  | Some x => Some x
  | None => if String.eqb k k' then Some v else None
  end.
Proof.
  induction d as [|[k0 v0] d IH]; simpl; [reflexivity|].
  destruct (String.eqb k k0); [reflexivity|exact IH].
Qed.

Lemma get_setdefault (k k' : string) (v : pyval) (d : kwargs) :
  get k (setdefault k' v d) =
  match get k d with
  | Some x => Some x
  | None => if String.eqb k k' then Some v else None
  end.
Proof.
  unfold setdefault. destruct (get k' d) as [x|] eqn:E.
  - destruct (get k d) eqn:E2; [reflexivity|].
    destruct (String.eqb k k') eqn:Ek; [|reflexivity].
    apply String.eqb_eq in Ek. subst. congruence.
  - apply get_app_one.
Qed.

(** X15.  Every request that goes through [Session.request] carries a
    timeout and proxies: the caller's own when given, else the pair (5, 5)
    and the configured proxy for all schemes.  Every other keyword argument
    is passed as it came, and a second pass changes nothing more. *)
Theorem Session_request_defaults (TELEGRAM_PROXY : pyval) (kw : kwargs) :
  get "timeout" (Session_request TELEGRAM_PROXY kw) =
    Some (match get "timeout" kw with
          | Some v => v
          | None => PyTuple [PyInt 5; PyInt 5]
          end) /\
  get "proxies" (Session_request TELEGRAM_PROXY kw) =
    Some (match get "proxies" kw with
          | Some v => v
          | None => PyDict [("all", TELEGRAM_PROXY)]
          end) /\
  (forall k, k <> "timeout" -> k <> "proxies" ->
             get k (Session_request TELEGRAM_PROXY kw) = get k kw) /\
  Session_request TELEGRAM_PROXY (Session_request TELEGRAM_PROXY kw) =
    Session_request TELEGRAM_PROXY kw.
Proof.
  unfold Session_request.
  assert (get "timeout" (setdefault "timeout" (PyTuple [PyInt 5; PyInt 5]) kw) =
          Some (match get "timeout" kw with
                | Some v => v
                | None => PyTuple [PyInt 5; PyInt 5]
                end)) as Ht.
  { rewrite get_setdefault. destruct (get "timeout" kw); reflexivity. }
  split; [|split; [|split]].
  - rewrite get_setdefault, Ht. reflexivity.
  - rewrite !get_setdefault. cbn [String.eqb Ascii.eqb Bool.eqb].
    destruct (get "proxies" kw); reflexivity.
  - intros k H1 H2. rewrite !get_setdefault.
    apply String.eqb_neq in H1. apply String.eqb_neq in H2. rewrite H1, H2.
    destruct (get k kw); reflexivity.
  - set (kw1 := setdefault "timeout" (PyTuple [PyInt 5; PyInt 5]) kw) in *.
    set (kw2 := setdefault "proxies" (PyDict [("all", TELEGRAM_PROXY)]) kw1).
    assert (get "timeout" kw2 <> None) as Hn.
    { unfold kw2. rewrite get_setdefault, Ht. discriminate. }
    assert (setdefault "timeout" (PyTuple [PyInt 5; PyInt 5]) kw2 = kw2) as ->.
    { unfold setdefault at 1. destruct (get "timeout" kw2); [reflexivity|contradiction]. }
    unfold kw2 at 1. unfold setdefault at 1.
    assert (get "proxies" kw2 <> None) as Hp.
    { unfold kw2. rewrite get_setdefault. cbn [String.eqb Ascii.eqb Bool.eqb].
      destruct (get "proxies" kw1); discriminate. }
    fold kw2. destruct (get "proxies" kw2); [reflexivity|contradiction].
Qed.

(** ** What [telegraph_ify] sends and what it holds *)

Lemma upto_length (n : nat) :
  forall s, (String.length (upto n s) <= n)%nat.
Proof.
  unfold upto. induction n as [|n IH]; intros [|c s]; simpl; try lia.
  specialize (IH s). lia.
Qed.

Lemma upto_prefix (n : nat) :
  forall s, String.prefix (upto n s) s = true.
Proof.
  unfold upto. induction n as [|n IH]; intros [|c s]; simpl; try reflexivity.
  destruct (Ascii.ascii_dec c c) as [_|N]; [apply IH|contradiction].
Qed.

Lemma upto_short (n : nat) :
  forall s, (String.length s <= n)%nat -> upto n s = s.
Proof.
  unfold upto. induction n as [|n IH]; intros [|c s] H; simpl in *;
    try reflexivity; try lia.
  f_equal. apply IH. lia.
Qed.

Lemma semaphore_eta (s : semaphore) : mkSemaphore (value s) (initial s) = s.
Proof. destruct s; reflexivity. Qed.

(** X14.  [telegraph_ify] waits, doing nothing, when the semaphore has no
    permit left.  With a permit, and the semaphore not above the size it was
    made with, it always ends and leaves the semaphore as it found it,
    whether the pool returned a page or raised.  Every remote createPage it
    causes sends at most 256 characters of title, 128 of author and 512 of
    author address, the title being a prefix of the stored one and the
    content the stored one; a stored title within the limit is sent whole.
    On success the result is the address of the page the pool returned. *)
Theorem telegraph_ify_permit (self : TelegraphIfy) (api : option API)
        (sem : semaphore) (w : World) :
  (value sem = 0%nat -> telegraph_ify self api sem w = None) /\
  ((0 < value sem <= initial sem)%nat ->
   exists r api' w' evs,
     telegraph_ify self api sem w = Some (r, api', sem, w') /\
     trace w' = trace w ++ evs /\
     Forall (within_limits self) evs /\
     (api = None -> r = Raise (OtherException "AttributeError") /\ evs = []) /\
     (forall pool, api = Some pool ->
        r = match fst (fst (API_create_page
                              (mkArgs (upto 256 (telegraph_title self))
                                      (telegraph_html_content self)
                                      (upto 128 (telegraph_author self))
                                      (upto 512 (telegraph_author_url self)))
                              pool w)) with
            | Return telegraph_page => Return (url telegraph_page)
            | Raise e => Raise e
            end)) /\
  ((String.length (telegraph_title self) <= 256)%nat ->
   upto 256 (telegraph_title self) = telegraph_title self).
Proof.
  split; [|split; [|apply upto_short]].
  - intros H0. unfold telegraph_ify, acquire. rewrite H0. reflexivity.
  - intros [Hpos Hle]. unfold telegraph_ify, acquire.
    destruct (value sem) as [|n] eqn:Hv; [lia|].
    assert (release (mkSemaphore n (initial sem)) = Return sem) as Hrel.
    { unfold release. cbn [value initial].
      destruct (initial sem <=? n)%nat eqn:E; [apply Nat.leb_le in E; lia|].
      rewrite <- Hv, semaphore_eta. reflexivity. }
    rewrite Hrel.
    destruct api as [pool|].
    + set (args := mkArgs (upto 256 (telegraph_title self))
                          (telegraph_html_content self)
                          (upto 128 (telegraph_author self))
                          (upto 512 (telegraph_author_url self))).
      assert (forall ev, carries args ev -> within_limits self ev) as Hlim.
      { intros [] Hc; try exact I. cbn in Hc. subst. unfold args. cbn.
        split; [apply upto_length|]. split; [apply upto_length|].
        split; [apply upto_length|]. split; [apply upto_prefix|reflexivity]. }
      unfold API_create_page.
      destruct (_accounts pool) as [|first rest] eqn:Ha.
      * exists (Raise NotConfigured), (Some pool), w, [].
        rewrite app_nil_r. repeat split; auto; try discriminate.
        intros pool0 E. inversion E; subst. rewrite Ha. reflexivity.
      * unfold randbelow. cbv zeta.
        set (i := (draws w 0%nat mod count pool)%nat).
        set (w1 := mkWorld (now w) (trace w ++ [EvChoice i]) (pages w) (accounts w)
                           (infos w) (writer w) (delays w) (shift (draws w))).
        destruct (create_page_calls args (nth i (first :: rest) first) w1)
          as (evs & T & _ & _ & C).
        destruct (create_page args (nth i (first :: rest) first) w1)
          as [[r member] w2] eqn:E.
        cbn [snd] in T.
        exists (match r with
                | Return telegraph_page => Return (url telegraph_page)
                | Raise e => Raise e
                end), (Some (mkAPI (store i member (first :: rest)))), w2,
               (EvChoice i :: evs).
        split; [destruct r; reflexivity|].
        split; [rewrite T; unfold w1; cbn [trace]; rewrite <- app_assoc; reflexivity|].
        split; [constructor; [exact I|];
                eapply Forall_impl; [exact Hlim|exact C]|].
        split; [discriminate|].
        intros pool0 E0. inversion E0; subst pool0. rewrite Ha.
        fold i. fold w1. rewrite E. reflexivity.
    + exists (Raise (OtherException "AttributeError")), None, w, [].
      rewrite app_nil_r. repeat split; auto. intros pool E. discriminate.
Qed.

(** ** Pools from good and from bad credentials *)

Lemma setup_account_vouched (token : string) (w : World) :
  String.length (Py.strip token) = 60%nat -> all_vouched w ->
  setup_account token w =
  (Some (Telegraph_init (Py.strip token) w),
   mkWorld (now w + 0 + delays w 0%nat)%Q
           (trace w ++ [EvGetAccountInfo (Py.strip token) (Return tt)])
           (pages w) (accounts w) (shift (infos w)) (writer w)
           (shift (delays w)) (draws w)).
Proof.
  intros Hlen Hv. unfold setup_account, probe, get_account_info.
  apply Nat.eqb_eq in Hlen. rewrite Hlen. cbn [negb].
  rewrite (Hv 0%nat). reflexivity.
Qed.

Lemma setup_accounts_vouched (tokens : list string) :
  forall accs w,
    Forall (fun t => String.length (Py.strip t) = 60%nat) tokens ->
    all_vouched w ->
    exists kept,
      fst (setup_accounts tokens accs w) = accs ++ kept /\
      map access_token kept = map Py.strip tokens /\
      Forall (fun a => retries a = 0) kept /\
      trace (snd (setup_accounts tokens accs w)) =
        trace w ++ map (fun t => EvGetAccountInfo (Py.strip t) (Return tt)) tokens.
Proof.
  induction tokens as [|token rest IH]; intros accs w Hlen Hv; simpl.
  - exists []. rewrite !app_nil_r. auto.
  - inversion Hlen as [|? ? H1 H2]; subst.
    rewrite (setup_account_vouched token w H1 Hv).
    match goal with
    | |- context [setup_accounts rest ?a ?w1] =>
        destruct (IH a w1 H2) as (kept & E & M & R & T)
    end.
    { intros k. apply (Hv (S k)). }
    exists (Telegraph_init (Py.strip token) w :: kept).
    rewrite E, T. cbn [trace map]. rewrite <- !app_assoc.
    repeat split; auto. cbn. f_equal. exact M.
Qed.

(** X16.  From credentials that all have the expected length once blanks
    are stripped, with a service that vouches for each, construction keeps
    one account per credential, in the order given, each with its stripped
    credential and the counter at 0; it makes one probe per credential and no
    provisioning call. *)
Theorem API_init_all_valid (tokens : list string) (w : World) :
  Forall (fun t => String.length (Py.strip t) = 60%nat) tokens ->
  all_vouched w ->
  map access_token (_accounts (fst (API_init (TokenList tokens) w))) =
    map Py.strip tokens /\
  count (fst (API_init (TokenList tokens) w)) = List.length tokens /\
  Forall (fun a => retries a = 0) (_accounts (fst (API_init (TokenList tokens) w))) /\
  trace (snd (API_init (TokenList tokens) w)) =
    trace w ++ map (fun t => EvGetAccountInfo (Py.strip t) (Return tt)) tokens.
Proof.
  intros Hlen Hv. unfold API_init, count. cbn [as_list].
  destruct (setup_accounts_vouched tokens [] w Hlen Hv) as (kept & E & M & R & T).
  destruct (setup_accounts tokens [] w) as [accs w1]. cbn [fst snd _accounts] in *.
  subst accs. cbn [app].
  repeat split; auto.
  rewrite <- (length_map access_token), M, length_map. reflexivity.
Qed.

Lemma API_init_all_valid_witness :
  map access_token
      (_accounts (fst (API_init (TokenList [String.append "  " Sample.token60;
                                            Sample.token60])
                         (Sample.world (Sample.script []))))) =
  [Sample.token60; Sample.token60].
Proof.
  refine (proj1 (API_init_all_valid [String.append "  " Sample.token60; Sample.token60]
                   (Sample.world (Sample.script [])) _ _)).
  - repeat constructor.
  - intros k. reflexivity.
Defined.

Lemma setup_account_refused (token : string) (w : World) :
  all_refused w ->
  fst (setup_account token w) = None /\ all_refused (snd (setup_account token w)).
Proof.
  intros [Hi Ha]. unfold setup_account, probe, create_account, get_account_info.
  destruct (Hi 0%nat) as [ei Ei]. destruct (Ha 0%nat) as [ea Ea].
  destruct (Ha 1%nat) as [eb Eb].
  destruct (negb (String.length (Py.strip token) =? 60)%nat).
  - rewrite Ea. destruct ea as [m| | |]; cbn; unfold shift; rewrite ?Eb; cbn;
      (split; [reflexivity|]);
      (split; intros k; cbn; unfold shift; first [apply Hi | apply Ha]).
  - rewrite Ei. destruct ei as [m| | |]; cbn; unfold shift; rewrite ?Ea; cbn;
      (split; [reflexivity|]);
      (split; intros k; cbn; unfold shift; first [apply Hi | apply Ha]).
Qed.

Lemma setup_accounts_refused (tokens : list string) :
  forall accs w,
    all_refused w -> fst (setup_accounts tokens accs w) = accs.
Proof.
  induction tokens as [|token rest IH]; intros accs w Hr; simpl; [reflexivity|].
  destruct (setup_account_refused token w Hr) as [E R].
  destruct (setup_account token w) as [r w1]. cbn [fst snd] in *. subst r.
  apply IH. exact R.
Qed.

(** X17.  With a service that refuses every probe and every provisioning,
    no credential survives: the pool is empty and not valid whatever the
    credentials, module start-up leaves no pool whatever the token setting,
    the semaphore gets the size 10, and a [TelegraphIfy] cannot be made. *)
Theorem no_pool_when_all_refused (w : World) :
  all_refused w ->
  (forall tokens,
      _accounts (fst (API_init tokens w)) = [] /\
      valid (fst (API_init tokens w)) = false) /\
  (forall setting,
      fst (module_api setting w) = None /\
      max_concurrency (fst (module_api setting w)) = 10%nat /\
      forall parse render xml title link feed_title author,
        TelegraphIfy_init parse render (fst (module_api setting w))
                          xml title link feed_title author =
        Raise NotConfigured).
Proof.
  intros Hr.
  assert (forall tokens, _accounts (fst (API_init tokens w)) = []) as Hempty.
  { intros tokens. unfold API_init.
    pose proof (setup_accounts_refused (as_list tokens) [] w Hr) as E.
    destruct (setup_accounts (as_list tokens) [] w) as [accs w1].
    cbn [fst _accounts] in *. exact E. }
  split.
  - intros tokens. split; [apply Hempty|]. unfold valid. rewrite Hempty. reflexivity.
  - intros setting.
    assert (fst (module_api setting w) = None) as E.
    { unfold module_api. destruct setting as [[|c s]|]; try reflexivity.
      pose proof (Hempty (TokenList (Py.split "," (String c s)))) as H.
      destruct (API_init (TokenList (Py.split "," (String c s))) w) as [api w1].
      cbn [fst] in H. unfold valid. rewrite H. reflexivity. }
    rewrite E. repeat split.
Qed.

Lemma no_pool_when_all_refused_witness :
  fst (module_api (Some "abc,def")
         (Sample.timing_out (Sample.refusing (Sample.world (Sample.script []))))) = None.
Proof.
  refine (proj1 (proj2 (no_pool_when_all_refused
                          (Sample.timing_out
                             (Sample.refusing (Sample.world (Sample.script [])))) _)
                       (Some "abc,def"))).
  split; intros k; eexists; reflexivity.
Defined.

(** ** The counters of a pool in use *)

Lemma setup_account_counter (token : string) (w : World) :
  match fst (setup_account token w) with
  | Some a => retries a = 0
  | None => True
  end.
Proof.
  unfold setup_account, probe, create_account, get_account_info.
  destruct (negb (String.length (Py.strip token) =? 60)%nat).
  - destruct (accounts w 0%nat) as [tok|[m| | |]]; cbn; unfold shift; try exact I.
    + destruct (infos w 0%nat) as [[]|[m| | |]]; cbn; unfold shift;
        try exact I; try reflexivity.
      destruct (accounts w 1%nat); cbn; [reflexivity|exact I].
    + destruct (accounts w 1%nat); cbn; [reflexivity|exact I].
  - destruct (infos w 0%nat) as [[]|[m| | |]]; cbn; try exact I; try reflexivity.
    destruct (accounts w 0%nat); cbn; [reflexivity|exact I].
Qed.

Lemma setup_accounts_counter (tokens : list string) :
  forall accs w,
    Forall (fun a => retries a = 0) accs ->
    Forall (fun a => retries a = 0) (fst (setup_accounts tokens accs w)).
Proof.
  induction tokens as [|token rest IH]; intros accs w H; simpl; [exact H|].
  pose proof (setup_account_counter token w) as Hc.
  destruct (setup_account token w) as [[a|] w1]; cbn [fst] in Hc; apply IH; [|exact H].
  apply Forall_app. split; [exact H|]. constructor; [exact Hc|constructor].
Qed.

Lemma store_Forall (P : Telegraph -> Prop) (i : nat) (a : Telegraph) :
  forall l, Forall P l -> P a -> Forall P (store i a l).
Proof.
  revert i. fix IH 2. intros i l H Ha. destruct l as [|h t]; destruct i as [|i]; simpl.
  - constructor.
  - constructor.
  - inversion H; subst. constructor; assumption.
  - inversion H; subst. constructor; [assumption|]. apply IH; assumption.
Qed.

Lemma API_create_page_in_range (args : PageArgs) (self : API) (w : World) :
  Forall in_range (_accounts self) ->
  Forall in_range (_accounts (snd (fst (API_create_page args self w)))) /\
  count (snd (fst (API_create_page args self w))) = count self.
Proof.
  intros H. unfold API_create_page, count.
  destruct (_accounts self) as [|first rest] eqn:Ha.
  - cbn [fst snd]. rewrite Ha. auto.
  - unfold randbelow. cbv zeta.
    match goal with
    | |- context [create_page args ?a ?w1] =>
        pose proof (counter_in_range args a w1) as Hc;
        destruct (create_page args a w1) as [[r member] w2]
    end.
    cbn [fst snd _accounts] in *.
    split; [|apply store_length].
    apply store_Forall; [exact H|]. apply Hc.
    assert (in_range (nth (draws w 0%nat mod count self) (first :: rest) first)) as Hn.
    { destruct (nth_in_or_default (draws w 0%nat mod count self) (first :: rest) first)
        as [Hin| ->].
      - apply (proj1 (Forall_forall _ _) H _ Hin).
      - inversion H; assumption. }
    unfold count in Hn. rewrite Ha in Hn. apply Hn.
Qed.

(** X18.  The accounts of a pool come out of construction with the
    counter at 0, and through any sequence of [API.create_page] calls, in
    any world, every account keeps its counter between 0 and 3 and the pool
    keeps its size: accounts are neither dropped nor added in use. *)
Theorem pool_counters_in_range (tokens : tokens_arg) (w0 : World)
        (calls : list PageArgs) (w : World) :
  Forall (fun a => retries a = 0) (_accounts (fst (API_init tokens w0))) /\
  Forall in_range
         (_accounts (snd (fst (API_create_pages calls (fst (API_init tokens w0)) w)))) /\
  count (snd (fst (API_create_pages calls (fst (API_init tokens w0)) w))) =
    count (fst (API_init tokens w0)).
Proof.
  assert (Forall (fun a => retries a = 0) (_accounts (fst (API_init tokens w0)))) as H0.
  { unfold API_init.
    pose proof (setup_accounts_counter (as_list tokens) [] w0 (Forall_nil _)) as H.
    destruct (setup_accounts (as_list tokens) [] w0) as [accs w1]. exact H. }
  split; [exact H0|].
  assert (Forall in_range (_accounts (fst (API_init tokens w0)))) as H1.
  { revert H0. apply Forall_impl. intros a Ha. unfold in_range. lia. }
  revert H1. generalize (fst (API_init tokens w0)) as pool. revert w.
  induction calls as [|args rest IH]; intros w pool H; simpl; [auto|].
  destruct (API_create_page_in_range args pool w H) as [H1 C1].
  destruct (API_create_page args pool w) as [[r pool1] w1]. cbn [fst snd] in *.
  destruct (IH w1 pool1 H1) as [H2 C2].
  destruct (API_create_pages rest pool1 w1) as [[rs pool2] w2]. cbn [fst snd] in *.
  split; [exact H2|congruence].
Qed.

(** ** The wait of the service is kept *)

(** The world in which the retry after a short wait runs. *)
Lemma short_wait_retry_world (args : PageArgs) (self : Telegraph) (w : World)
      (e : exn) (W : Z) :
  retries self < 3 ->
  pages w 0%nat = Raise e -> flood_wait e = Some W -> 0 <= W -> W < 60 ->
  writer w 0%nat = false -> delays_ok w ->
  exists w2,
    create_page args self w =
      create_page args (set_retries (retries self + 1) self) w2 /\
    trace w2 =
      trace w ++
      [EvSleep (throttle self w);
       EvCreatePage (access_token self) args
         (now w + throttle self w + delays w 0%nat)%Q
         (now w + throttle self w + delays w 0%nat + 0 + delays w 1%nat)%Q (Raise e);
       EvWriteLock; EvSleep (inject_Z (W + 1)); EvWriteUnlock] /\
    now w2 = (now w + throttle self w + delays w 0%nat + 0 + delays w 1%nat
              + inject_Z (W + 1) + delays w 2%nat)%Q /\
    pages w2 0%nat = pages w 1%nat /\
    delays_ok w2.
Proof.
  intros Hr He HW H0 H60 Hw Hd.
  rewrite (create_page_flood args self w e W Hr He HW).
  rewrite attempted_eq. cbv zeta. rewrite He.
  rewrite flood_backoff_sleep; [ | exact Hw | exact (conj H0 H60) ].
  cbn [now trace pages accounts infos writer delays draws].
  eexists. split; [reflexivity|]. cbn [now trace pages delays].
  split; [rewrite <- app_assoc; reflexivity|].
  split; [reflexivity|]. split; [reflexivity|].
  intros k. apply (Hd (S (S (S k)))).
Qed.

(** Below the cap the first pass through [_create_page] always happens. *)
Lemma create_page_first_attempt (args : PageArgs) (self : Telegraph) (w : World) :
  retries self < 3 ->
  exists evs,
    trace (snd (create_page args self w)) = trace (attempted args self w) ++ evs.
Proof.
  intros Hr. destruct (pages w 0%nat) as [p|e] eqn:Hp.
  - rewrite (create_page_success args self w p Hr Hp).
    exists []. rewrite app_nil_r. reflexivity.
  - destruct (is_flood e) eqn:Hf.
    2:{ rewrite (create_page_other_error args self w e Hr Hp Hf).
        exists []. rewrite app_nil_r. reflexivity. }
    destruct (flood_wait e) as [W|] eqn:HW.
    2:{ destruct e as [m| | |]; try discriminate. cbn in Hf, HW. rewrite Hf in HW.
        rewrite (create_page_flood_unreadable args self w m Hr Hp Hf HW).
        exists []. rewrite app_nil_r. reflexivity. }
    rewrite (create_page_flood args self w e W Hr Hp HW).
    destruct (flood_backoff W (set_retries (retries self + 1) self)
                (attempted args self w)) as [[[[]|e'] self2] w2] eqn:Hb;
      destruct (flood_backoff_frame _ _ _ _ _ _ Hb) as (_ & _ & _ & _ & evs1 & T1 & _).
    + destruct (create_page_calls args self2 w2) as (evs & T & _).
      exists (evs1 ++ evs). rewrite T, T1, app_assoc. reflexivity.
    + exists evs1. exact T1.
Qed.

(** X19.  A rejection with a short wait [W], met below the cap while no
    other caller holds the write lock and no blocking step is cut short, is
    followed by a second remote call that starts at least [W + 1] seconds
    after the rejected one ended: lock, one sleep of [W + 1], unlock, the
    throttling sleep, the call with the same credential and arguments. *)
Theorem short_wait_is_kept (args : PageArgs) (self : Telegraph) (w : World)
        (e : exn) (W : Z) :
  retries self + 1 < 3 ->
  pages w 0%nat = Raise e -> flood_wait e = Some W -> 0 <= W < 60 ->
  writer w 0%nat = false -> delays_ok w ->
  exists start stop nap start2 stop2 evs,
    trace (snd (create_page args self w)) =
      trace w ++
      [EvSleep (throttle self w);
       EvCreatePage (access_token self) args start stop (Raise e);
       EvWriteLock; EvSleep (inject_Z (W + 1)); EvWriteUnlock;
       EvSleep nap;
       EvCreatePage (access_token self) args start2 stop2 (pages w 1%nat)] ++ evs /\
    (stop + inject_Z (W + 1) <= start2)%Q.
Proof.
  intros Hr He HW [H0 H60] Hw Hd.
  assert (retries self < 3) as Hr3 by lia.
  destruct (short_wait_retry_world args self w e W Hr3 He HW H0 H60 Hw Hd)
    as [w2 [E [T [N [G D]]]]].
  rewrite E.
  destruct (create_page_first_attempt args (set_retries (retries self + 1) self) w2)
    as (evs & T2); [unfold set_retries; simpl; lia|].
  rewrite attempted_trace in T2. cbn [access_token set_retries] in T2.
  do 5 eexists. exists evs.
  split.
  - rewrite T2, T, G. rewrite <- !app_assoc. cbn [app]. reflexivity.
  - rewrite N. pose proof (throttle_nonneg (set_retries (retries self + 1) self) w2).
    pose proof (D 0%nat). pose proof (Hd 2%nat). lra.
Qed.

Lemma short_wait_is_kept_witness :
  exists start stop nap start2 stop2 evs,
    trace (snd (create_page Sample.args (Sample.account 0)
                  (Sample.world (Sample.script [Sample.flood "5"])))) =
      [] ++
      [EvSleep (throttle (Sample.account 0)
                  (Sample.world (Sample.script [Sample.flood "5"])));
       EvCreatePage "token" Sample.args start stop (Sample.flood "5");
       EvWriteLock; EvSleep (inject_Z (5 + 1)); EvWriteUnlock;
       EvSleep nap;
       EvCreatePage "token" Sample.args start2 stop2 (Return Sample.page)] ++ evs /\
    (stop + inject_Z (5 + 1) <= start2)%Q.
Proof.
  apply (short_wait_is_kept Sample.args (Sample.account 0)
           (Sample.world (Sample.script [Sample.flood "5"]))
           (TelegraphException "FLOOD_WAIT_5") 5).
  - simpl. lia.
  - reflexivity.
  - reflexivity.
  - lia.
  - reflexivity.
  - intros k. simpl. unfold Qle. simpl. lia.
Defined.

(** ** Witnesses of the branches *)

Lemma blocked_flood_retries_at_once_witness :
  trace (snd (create_page Sample.args (Sample.account 0)
                (Scene.busy (Sample.world (Sample.script [Sample.flood "70"]))))) =
  [EvSleep 1; EvCreatePage "token" Sample.args 101 101 (Sample.flood "70");
   EvSleep 0; EvCreatePage "token" Sample.args 101 101 (Return Sample.page)].
Proof.
  rewrite (blocked_flood_retries_at_once Sample.args (Sample.account 0)
             (Scene.busy (Sample.world (Sample.script [Sample.flood "70"])))
             (TelegraphException "FLOOD_WAIT_70") 70
             ltac:(simpl; lia) eq_refl eq_refl eq_refl).
  vm_compute. reflexivity.
Defined.

Lemma unreadable_wait_raises_witness :
  fst (create_page Sample.args (Sample.account 0)
         (Sample.world (Sample.script [Sample.flood "soon"]))) =
  (Raise (ValueError "invalid literal for int()"), Sample.account 0).
Proof.
  rewrite (unreadable_wait_raises Sample.args (Sample.account 0)
             (Sample.world (Sample.script [Sample.flood "soon"]))
             (TelegraphException "FLOOD_WAIT_soon")
             ltac:(simpl; lia) eq_refl eq_refl eq_refl).
  reflexivity.
Defined.

